(** * Performance Data Analyzer: the upload, validation and KPI analysis script

    A shallow embedding of [performance-allegion-app.py].  The script is a
    Streamlit page: it is run from top to bottom on every interaction, reads
    the uploaded CSV into a pandas DataFrame, validates it, and renders the
    metadata, the feature/KPI listing and, for each selected KPI, a trend
    chart, a bar chart and a table of statistics.

    The pandas and Python operations the script calls are given their
    documented meaning on columns of cells; the script itself is a program in
    a small monad that threads the store of DataFrame objects and the list of
    Streamlit calls made so far, and can raise. *)

From Stdlib Require Import String Ascii List Bool Arith Lia ZArith.
From Stdlib Require Import QArith Qcanon.
From Stdlib Require Import Sorting.Sorted Sorting.Permutation FinFun.
Import ListNotations.

Set Implicit Arguments.

Local Close Scope Qc_scope.
Local Close Scope Q_scope.
Local Open Scope nat_scope.
Local Open Scope string_scope.
Local Open Scope list_scope.

(** ** Cells, columns, frames *)

(** A cell of a DataFrame read by [pd.read_csv]: a missing field ([NaN]), a
    text field, or a number.  A number is an [int64] or a [float64] entry,
    written as the rational it is, in lowest terms, so that equal numbers are
    equal cells.  Comparing, selecting and counting entries is exact on
    these; arithmetic on them is not (see [Pandas.stat_mean]). *)
Inductive cell : Type :=
| NaN
| Str (s : string)
| Num (q : Qc).

Definition cell_eq_dec (a b : cell) : {a = b} + {a <> b}.
Proof.
  decide equality; [apply string_dec | apply Qc_eq_dec].
Defined.

Definition cell_eqb (a b : cell) : bool :=
  if cell_eq_dec a b then true else false.

Definition Qc_of_nat (n : nat) : Qc := Q2Qc (inject_Z (Z.of_nat n)).

(** An integer cell (an [int64] entry). *)
Definition Int (n : nat) : cell := Num (Qc_of_nat n).

Definition Series := list cell.

(** A DataFrame: its columns in order, each with its name.  Every column of
    a frame has one entry per row. *)
Definition DataFrame := list (string * Series).

Definition isna (c : cell) : bool :=
  match c with NaN => true | _ => false end.

Definition in_list (x : cell) (l : list cell) : bool :=
  existsb (cell_eqb x) l.

Definition str_in (x : string) (l : list string) : bool :=
  existsb (String.eqb x) l.

(** ** Insertion sort over a boolean order

    Used for the sorted group keys of [groupby] and for the median. *)
Section InsertionSort.
Variable A : Type.
Variable leb : A -> A -> bool.

Fixpoint insert (x : A) (l : list A) : list A :=
  match l with
  | [] => [x]
  | y :: r => if leb x y then x :: l else y :: insert x r
  end.

Fixpoint isort (l : list A) : list A :=
  match l with
  | [] => []
  | x :: r => insert x (isort r)
  end.

End InsertionSort.

(** ** Exceptions *)

Inductive exn : Type :=
| StopException            (* raised by [st.stop()] *)
| KeyError (key : string)  (* [df[col]] on an absent column *)
| IndexError               (* [.iloc[0]] on an empty column *)
| TypeError                (* ordering or arithmetic on unlike values *)
| StreamlitDefaultNotInOptionsError.
                           (* a default of [multiselect] not among its options *)

Inductive result (A : Type) : Type :=
| Ok (a : A)
| Raise (e : exn).

Arguments Ok {A} a.
Arguments Raise {A} e.

(** ** The pandas operations the script calls *)

Module Pandas.

(** [df.columns.to_list()] *)
Definition columns (df : DataFrame) : list string := map fst df.

(** The column of a frame under a name, if there is one. *)
Fixpoint lookup (col : string) (df : DataFrame) : option Series :=
  match df with
  | [] => None
  | (name, s) :: rest => if String.eqb col name then Some s else lookup col rest
  end.

(** [df[col]]: raises [KeyError] when the column is absent. *)
Definition getitem (df : DataFrame) (col : string) : result Series :=
  match lookup col df with
  | Some s => Ok s
  | None => Raise (KeyError col)
  end.

(** [df[col] = s]: replaces the column, or appends it as the last one. *)
Fixpoint setitem (df : DataFrame) (col : string) (s : Series) : DataFrame :=
  match df with
  | [] => [(col, s)]
  | (name, old) :: rest =>
      if String.eqb col name then (name, s) :: rest
      else (name, old) :: setitem rest col s
  end.

Definition dropna (s : Series) : Series :=
  filter (fun c => negb (isna c)) s.

(** [Series.unique()]: the distinct entries in order of first appearance;
    a missing entry counts as one value.  [seen] is the table of the
    entries met so far. *)
Fixpoint unique_from (seen : list cell) (s : Series) : Series :=
  match s with
  | [] => []
  | x :: rest =>
      if in_list x seen then unique_from seen rest
      else x :: unique_from (x :: seen) rest
  end.

Definition unique (s : Series) : Series := unique_from [] s.

(** [Series.nunique()]: the number of distinct entries, missing ones
    excluded ([dropna=True] is the default). *)
Definition nunique (s : Series) : nat := length (unique (dropna s)).

(** The comparison [a == b] of two entries: a missing entry is equal to
    nothing, not even to itself. *)
Definition py_eq (a b : cell) : bool :=
  negb (isna a) && cell_eqb a b.

(** [series == k], entry by entry. *)
Definition eq_scalar (s : Series) (k : cell) : list bool :=
  map (fun c => py_eq c k) s.

(** The entries of a column kept by a boolean mask. *)
Fixpoint select (mask : list bool) (s : Series) : Series :=
  match mask, s with
  | b :: m, x :: r => if b then x :: select m r else select m r
  | _, _ => []
  end.

(** [df[mask]]: the rows where the mask holds, in their order; a new
    frame. *)
Definition getitem_mask (df : DataFrame) (mask : list bool) : DataFrame :=
  map (fun '(name, s) => (name, select mask s)) df.

(** [series.iloc[0]] *)
Definition iloc0 (s : Series) : result cell :=
  match s with
  | [] => Raise IndexError
  | x :: _ => Ok x
  end.

(** [series + 1] on a column of numbers. *)
Definition add1 (s : Series) : Series :=
  map (fun c => match c with Num q => Num (q + 1)%Qc | other => other end) s.

(** *** groupby *)

(** The order in which [groupby] sorts the group keys: numbers by value,
    text by code point, numbers before text. *)
Definition Qc_leb (a b : Qc) : bool := Qle_bool a b.

Definition key_leb (a b : cell) : bool :=
  match a, b with
  | Num p, Num q => Qc_leb p q
  | Num _, _ => true
  | Str _, Num _ => false
  | Str s, Str t => String.leb s t
  | Str _, NaN => true
  | NaN, NaN => true
  | NaN, _ => false
  end.

(** The keys of the groups of [df.groupby(key)]: the distinct entries of
    the key column, sorted; rows whose key is missing belong to no group
    ([sort=True] and [dropna=True] are the defaults). *)
Definition group_keys (keys : Series) : Series :=
  isort key_leb (unique (dropna keys)).

(** The entries of [vals] on the rows of group [k], in row order. *)
Definition group (keys vals : Series) (k : cell) : Series :=
  map snd (filter (fun p => cell_eqb (fst p) k) (combine keys vals)).

(** [df.groupby(key).cumcount()]: each row is numbered within its group,
    from 0, in row order; a row whose key is missing gets a missing
    number.  [seen] holds the keys of the rows above. *)
Fixpoint cumcount_from (seen : list cell) (keys : Series) : Series :=
  match keys with
  | [] => []
  | k :: rest =>
      (if isna k then NaN else Int (count_occ cell_eq_dec seen k))
        :: cumcount_from (k :: seen) rest
  end.

Definition cumcount (keys : Series) : Series := cumcount_from [] keys.

(** [df.groupby(key)[col].unique()]: one entry per group, holding the
    distinct entries of the group in order of first appearance. *)
Definition groupby_unique (keys vals : Series) : list (cell * Series) :=
  map (fun k => (k, unique (group keys vals k))) (group_keys keys).

(** *** Statistics of a group *)

(** The dtype of a column read by [pd.read_csv] is text as soon as one entry
    of the column is text. *)
Definition is_text (c : cell) : bool :=
  match c with Str _ => true | _ => false end.

Definition text_dtype (s : Series) : bool := existsb is_text s.

(** The numbers of a group, missing entries skipped ([skipna=True]);
    text cannot be averaged.  This is what the entries of a group give; a
    column of text that has no text left among the rows of a frame is
    refused by pandas all the same, by its dtype, which the entries do not
    show (see [numeric_dtype] below). *)
Fixpoint numbers (s : Series) : result (list Qc) :=
  match s with
  | [] => Ok []
  | NaN :: rest => numbers rest
  | Num q :: rest =>
      match numbers rest with
      | Ok l => Ok (q :: l)
      | Raise e => Raise e
      end
  | Str _ :: _ => Raise TypeError
  end.

Definition Qc_min (a b : Qc) : Qc := if Qc_leb a b then a else b.
Definition Qc_max (a b : Qc) : Qc := if Qc_leb a b then b else a.

Definition sum (l : list Qc) : Qc := fold_left Qcplus l 0%Qc.

Definition stat_min (l : list Qc) : cell :=
  match l with
  | [] => NaN
  | x :: r => Num (fold_left Qc_min r x)
  end.

Definition stat_max (l : list Qc) : cell :=
  match l with
  | [] => NaN
  | x :: r => Num (fold_left Qc_max r x)
  end.

(** The mean and the median are given as the exact quotient and the exact
    midpoint.  pandas computes them in [float64]: its results are these
    values up to rounding only, and the statements below rest on the place
    and on the presence of a mean or a median, never on what it equals. *)
Definition stat_mean (l : list Qc) : cell :=
  match l with
  | [] => NaN
  | _ => Num (sum l / Qc_of_nat (length l))%Qc
  end.

Definition stat_median (l : list Qc) : cell :=
  match l with
  | [] => NaN
  | _ =>
      let sorted := isort Qc_leb l in
      let n := length sorted in
      if Nat.odd n then Num (nth (n / 2) sorted 0%Qc)
      else Num ((nth (n / 2 - 1) sorted 0%Qc + nth (n / 2) sorted 0%Qc)
                / Qc_of_nat 2)%Qc
  end.

(** One statistic for each group, in the order of the keys given. *)
Fixpoint aggregate (f : list Qc -> cell) (keys vals : Series)
         (ks : list cell) : result Series :=
  match ks with
  | [] => Ok []
  | k :: rest =>
      match numbers (group keys vals k) with
      | Raise e => Raise e
      | Ok l =>
          match aggregate f keys vals rest with
          | Raise e => Raise e
          | Ok out => Ok (f l :: out)
          end
      end
  end.

(** [df.groupby(key)[col].agg(f)] *)
Definition groupby_agg (f : list Qc -> cell) (keys vals : Series)
  : result Series :=
  aggregate f keys vals (group_keys keys).

End Pandas.

(** ** Python's [sorted]

    [sorted] is a stable comparison sort that only asks [<].  [<] between
    text and a number (a missing entry is the float [nan]) raises
    [TypeError]; [<] with [nan] on either side is false.  The sort is written
    here as an insertion sort: on items that [<] orders totally every stable
    sort returns the same list, and on a list that mixes text with numbers
    every comparison sort of two or more items raises.  Where [nan] stands
    among numbers [<] is no order, and the list Python returns is the
    outcome of its own merging of runs, which this insertion sort does not
    follow: the statements below sort text. *)

Definition py_lt (a b : cell) : result bool :=
  match a, b with
  | Str s, Str t => Ok (String.ltb s t)
  | Num p, Num q => Ok (negb (Pandas.Qc_leb q p))
  | Str _, _ | _, Str _ => Raise TypeError
  | _, _ => Ok false
  end.

Fixpoint py_insert (x : cell) (l : list cell) : result (list cell) :=
  match l with
  | [] => Ok [x]
  | y :: r =>
      match py_lt y x with
      | Raise e => Raise e
      | Ok true =>
          match py_insert x r with
          | Raise e => Raise e
          | Ok r' => Ok (y :: r')
          end
      | Ok false => Ok (x :: l)
      end
  end.

Fixpoint sorted (l : list cell) : result (list cell) :=
  match l with
  | [] => Ok []
  | x :: r =>
      match sorted r with
      | Raise e => Raise e
      | Ok r' => py_insert x r'
      end
  end.

(** ** Streamlit calls, the object store, and the script monad *)

Inductive mark : Type := mark_line | mark_bar.

(** The calls the script makes on Streamlit, with what they are given.  A
    label built by an f-string around a value is kept as the value, and the
    pictograph in front of a heading is left out.  The [with] blocks
    (containers, columns) only place the calls on the page and leave no
    trace here.  Drawing is Streamlit's: a call is recorded with its
    arguments, and what Streamlit does with a frame (it refuses one that
    holds an integer beyond 64 bits, which is no cell here) is not part of
    the script. *)
Inductive call : Type :=
| st_set_page_config (page_title : string)
| st_markdown (body : string)
| st_sidebar_title (body : string)
| st_sidebar_file_uploader (label : string)
| st_error (body : string)
| st_warning (body : string)
| st_write (body : string)
| st_write_value (label : string) (value : cell)
| st_write_len (label : string) (n : nat)
| st_write_array (values : Series)
| st_sidebar_header (body : string)
| st_sidebar_multiselect (label : string) (options default : Series)
| st_subheader (body : string)
| st_divider
| st_expander (feature : cell)
| st_write_bullet (kpi : cell)
| st_subheader_kpi (kpi : cell)
| st_altair_chart (m : mark) (data : DataFrame)
| st_dataframe (data : DataFrame).

(** A DataFrame object is named by its place in the store. *)
Definition ref := nat.

Record state : Type := mkState {
  heap : list DataFrame;   (* the DataFrame objects created so far *)
  log : list call          (* the Streamlit calls made so far *)
}.

Definition M (A : Type) : Type := state -> result A * state.

Definition ret {A} (a : A) : M A := fun s => (Ok a, s).

Definition bind {A B} (m : M A) (f : A -> M B) : M B :=
  fun s =>
    match m s with
    | (Ok a, s') => f a s'
    | (Raise e, s') => (Raise e, s')
    end.

Notation "x <- m ;; k" := (bind m (fun x => k))
  (at level 61, m at next level, right associativity).
Notation "m ;; k" := (bind m (fun _ => k))
  (at level 61, right associativity).

Definition raise {A} (e : exn) : M A := fun s => (Raise e, s).

Definition lift {A} (r : result A) : M A := fun s => (r, s).

Definition st (c : call) : M unit :=
  fun s => (Ok tt, mkState (heap s) (log s ++ [c])).

(** A new object. *)
Definition alloc (df : DataFrame) : M ref :=
  fun s => (Ok (length (heap s)), mkState (heap s ++ [df]) (log s)).

(** The frame an object holds now. *)
Definition deref (r : ref) : M DataFrame :=
  fun s => (Ok (nth r (heap s) []), s).

Fixpoint replace_at (n : nat) (df : DataFrame) (h : list DataFrame)
  : list DataFrame :=
  match h, n with
  | [], _ => []
  | _ :: t, O => df :: t
  | x :: t, S n' => x :: replace_at n' df t
  end.

(** The object is changed in place. *)
Definition update (r : ref) (f : DataFrame -> DataFrame) : M unit :=
  fun s => (Ok tt, mkState (replace_at r (f (nth r (heap s) [])) (heap s)) (log s)).

Fixpoint for_each {A} (l : list A) (body : A -> M unit) : M unit :=
  match l with
  | [] => ret tt
  | x :: rest => body x ;; for_each rest body
  end.

(** Python's [all] over a generator: stops at the first false. *)
Fixpoint all_of {A} (l : list A) (test : A -> M bool) : M bool :=
  match l with
  | [] => ret true
  | x :: rest => b <- test x ;; if b then all_of rest test else ret false
  end.

(** DataFrame methods on objects. *)
Definition df_columns (r : ref) : M (list string) :=
  df <- deref r ;; ret (Pandas.columns df).

Definition df_getitem (r : ref) (col : string) : M Series :=
  df <- deref r ;; lift (Pandas.getitem df col).

Definition df_getitem_mask (r : ref) (mask : list bool) : M ref :=
  df <- deref r ;; alloc (Pandas.getitem_mask df mask).

Definition df_copy (r : ref) : M ref :=
  df <- deref r ;; alloc df.

Definition df_setitem (r : ref) (col : string) (s : Series) : M unit :=
  update r (fun df => Pandas.setitem df col s).

(** [pd.read_csv]: the table read from the uploaded file is a new object.
    The upload is given by the table pandas parses it to; a file that pandas
    cannot parse (an empty file) ends the run at line 32 and is no input
    here. *)
Definition read_csv (contents : DataFrame) : M ref := alloc contents.

(** [st.stop()] *)
Definition st_stop : M unit := raise StopException.

(** [st.sidebar.multiselect]: called with the options and the default, it
    returns what the user has selected, the default until the user changes
    it.  Streamlit looks every default up among the options by [==]; a
    missing entry is [nan], which equals nothing, itself included, so a
    default that holds one is refused. *)
Definition multiselect (choice : option Series) (label : string)
           (options default : Series) : M Series :=
  st (st_sidebar_multiselect label options default) ;;
  if in_list NaN default then raise StreamlitDefaultNotInOptionsError
  else ret (match choice with Some sel => sel | None => default end).

(** ** The script *)

Definition REQUIRED_COLUMNS : list string :=
  ["OS"; "Build Number"; "Target Device"; "OS Version";
   "Load"; "feature"; "KPI Name"; "KPI Value"].

Definition CONSTANT_COLUMNS : list string :=
  ["OS"; "Build Number"; "Target Device"; "OS Version"].

(** [', '.join(l)] *)
Definition join (l : list string) : string := String.concat ", " l.

(** Lines 12 to 27: page setup and the upload widget.  The style sheet is
    given on one line, without the quotes of its attribute selector. *)
Definition page_setup : M unit :=
  st (st_set_page_config "Performance Data Analyzer") ;;
  st (st_markdown "<style>[data-testid=stSidebar] { min-width: 400px; }</style>") ;;
  st (st_sidebar_title "Upload Performance Data") ;;
  st (st_sidebar_file_uploader "Choose a CSV file").

(** Line 36: the required columns the upload lacks. *)
Definition missing_columns (uploaded_csv_column : list string) : list string :=
  filter (fun col => negb (str_in col uploaded_csv_column)) REQUIRED_COLUMNS.

(** Line 44: every constant column holds exactly one value. *)
Definition csv_status (data_set : ref) : M bool :=
  all_of CONSTANT_COLUMNS
         (fun col => s <- df_getitem data_set col ;;
                     ret (Nat.eqb (Pandas.nunique s) 1)).

(** Lines 57 to 64 and 68 to 73: the constant values, the distinct features
    and KPI names, and the KPI filter of the side bar. *)
Record Metadata : Type := mkMetadata {
  os : cell;
  build : cell;
  device : cell;
  os_version : cell;
  unique_features : Series;
  unique_kpis : Series
}.

Definition first_of (data_set : ref) (col : string) : M cell :=
  s <- df_getitem data_set col ;; lift (Pandas.iloc0 s).

Definition extract (data_set : ref) : M Metadata :=
  os <- first_of data_set "OS" ;;
  build <- first_of data_set "Build Number" ;;
  device <- first_of data_set "Target Device" ;;
  os_version <- first_of data_set "OS Version" ;;
  features <- df_getitem data_set "feature" ;;
  kpis <- df_getitem data_set "KPI Name" ;;
  ret (mkMetadata os build device os_version
                  (Pandas.unique features) (Pandas.unique kpis)).

(** [unique_kpis[:3]] *)
Definition default_kpis (unique_kpis : Series) : Series := firstn 3 unique_kpis.

(** Lines 76 to 91: the preview of the upload. *)
Definition preview (m : Metadata) : M unit :=
  st (st_subheader "Uploaded CSV File Preview") ;;
  st (st_write_value "#### OS:" (os m)) ;;
  st (st_write_value "#### Build Number:" (build m)) ;;
  st (st_write_value "#### Target Device:" (device m)) ;;
  st (st_write_value "#### OS Version:" (os_version m)) ;;
  st (st_write_len "#### Unique Features:" (length (unique_features m))) ;;
  st (st_write_array (unique_features m)) ;;
  st (st_write_len "#### Unique KPIs:" (length (unique_kpis m))) ;;
  st st_divider.

(** Lines 93 to 99: the KPI names of each feature. *)
Definition kpi_mapping (data_set : ref) : M unit :=
  st (st_subheader "KPI Mapping by Feature") ;;
  features <- df_getitem data_set "feature" ;;
  names <- df_getitem data_set "KPI Name" ;;
  let grouped := Pandas.groupby_unique features names in
  for_each grouped (fun '(feature, kpis) =>
    st (st_expander feature) ;;
    listing <- lift (sorted kpis) ;;
    for_each listing (fun kpi => st (st_write_bullet kpi))).

(** Line 135: the mean of the KPI value for each load. *)
Definition mean_data (kpi_data : DataFrame) : result DataFrame :=
  match Pandas.getitem kpi_data "Load" with
  | Raise e => Raise e
  | Ok loads =>
      match Pandas.getitem kpi_data "KPI Value" with
      | Raise e => Raise e
      | Ok vals =>
          match Pandas.groupby_agg Pandas.stat_mean loads vals with
          | Raise e => Raise e
          | Ok means =>
              Ok [("Load", Pandas.group_keys loads); ("KPI Value", means)]
          end
      end
  end.

(** Lines 151 and 152: minimum, maximum, mean and median for each load.
    On text [agg] raises, at the mean if not before. *)
Definition summary (kpi_data : DataFrame) : result DataFrame :=
  match Pandas.getitem kpi_data "Load" with
  | Raise e => Raise e
  | Ok loads =>
      match Pandas.getitem kpi_data "KPI Value" with
      | Raise e => Raise e
      | Ok vals =>
          match Pandas.groupby_agg Pandas.stat_min loads vals,
                Pandas.groupby_agg Pandas.stat_max loads vals,
                Pandas.groupby_agg Pandas.stat_mean loads vals,
                Pandas.groupby_agg Pandas.stat_median loads vals with
          | Ok mins, Ok maxs, Ok means, Ok medians =>
              Ok [("Load", Pandas.group_keys loads);
                  ("Min (sec)", mins); ("Max (sec)", maxs);
                  ("Mean (sec)", means); ("Median (sec)", medians)]
          | Raise e, _, _, _ => Raise e
          | _, Raise e, _, _ => Raise e
          | _, _, Raise e, _ => Raise e
          | _, _, _, Raise e => Raise e
          end
      end
  end.

(** Lines 115 and 116: the rows of one KPI, copied, with the run index of
    each row within its load. *)
Definition make_kpi_data (data_set : ref) (kpi : cell) : M ref :=
  names <- df_getitem data_set "KPI Name" ;;
  filtered <- df_getitem_mask data_set (Pandas.eq_scalar names kpi) ;;
  kpi_data <- df_copy filtered ;;
  loads <- df_getitem kpi_data "Load" ;;
  df_setitem kpi_data "Run" (Pandas.add1 (Pandas.cumcount loads)) ;;
  ret kpi_data.

(** [mean] and [agg] refuse a text column by its dtype, whatever rows the
    frame has, also none.  A frame here holds the entries of its columns and
    not their dtype; [df[mask]] and [copy()] keep the dtype of every column,
    so the dtype of a column of [kpi_data] is the one the column has in
    [data_set], from which [kpi_data] was filtered. *)
Definition numeric_dtype (data_set : ref) (col : string) : M unit :=
  s <- df_getitem data_set col ;;
  if Pandas.text_dtype s then raise TypeError else ret tt.

(** Lines 109 to 153: the analysis of one selected KPI. *)
Definition kpi_analysis (data_set : ref) (kpi : cell) : M unit :=
  st (st_subheader_kpi kpi) ;;
  st (st_markdown "#### Trend Chart") ;;
  kpi_data <- make_kpi_data data_set kpi ;;
  trend <- deref kpi_data ;;
  st (st_altair_chart mark_line trend) ;;
  st (st_markdown "#### Bar Chart") ;;
  numeric_dtype data_set "KPI Value" ;;
  frame <- deref kpi_data ;;
  bars <- lift (mean_data frame) ;;
  st (st_altair_chart mark_bar bars) ;;
  st (st_markdown "#### Summary Statistics by Load") ;;
  frame <- deref kpi_data ;;
  table <- lift (summary frame) ;;
  st (st_dataframe table).

(** Lines 51 to 153: what is rendered for a valid upload. *)
Definition render (data_set : ref) (choice : option Series) : M unit :=
  st (st_markdown "<h1 style='text-align: center; font-weight: bold;'>Performance Data Analysis</h1>") ;;
  m <- extract data_set ;;
  st (st_sidebar_header "KPI Filter") ;;
  selected_kpis <- multiselect choice "Select KPIs for analysis"
                     (unique_kpis m) (default_kpis (unique_kpis m)) ;;
  preview m ;;
  kpi_mapping data_set ;;
  for_each selected_kpis (kpi_analysis data_set).

(** Lines 30 to 159.  [uploaded_file] is the table held by the uploaded
    file, if a file has been uploaded; [choice] is the user's selection in
    the KPI filter, if the user has made one. *)
Definition on_upload (contents : DataFrame) (choice : option Series) : M unit :=
  data_set <- read_csv contents ;;
  uploaded_csv_column <- df_columns data_set ;;
  let missing := missing_columns uploaded_csv_column in
  (match missing with
   | _ :: _ =>
       st (st_error (String.append
           "The uploaded CSV file is missing the following required columns: "
           (join missing))) ;;
       st (st_warning (String.append
           "Please ensure that the CSV file contains all required columns: "
           (join REQUIRED_COLUMNS))) ;;
       st_stop
   | [] => ret tt
   end) ;;
  match missing with
  | [] =>
      ok <- csv_status data_set ;;
      if negb ok then
        st (st_error "The uploaded CSV file contains inconsistent data.") ;;
        st (st_warning (String.append
           "Please ensure that all constant columns have the same value: "
           (join CONSTANT_COLUMNS)))
      else
        render data_set choice
  | _ :: _ => ret tt
  end.

(** Lines 155 to 159: without an upload.  The string of line 156 is a
    statement of its own in the body of the [else]: Streamlit writes such a
    value to the page as [st.write] would. *)
Definition no_upload : M unit :=
  st (st_write "Prompt user to upload a file and also convey the user regarding the CSV file columns.") ;;
  st (st_write "Please upload a CSV file containing performance data using the sidebar.") ;;
  st (st_write (String.append
        "Upload the CSV file which contain following columns: "
        (join REQUIRED_COLUMNS))) ;;
  st (st_warning "Please upload a CSV file to proceed.").

Definition script (uploaded_file : option DataFrame) (choice : option Series)
  : M unit :=
  page_setup ;;
  match uploaded_file with
  | Some contents => on_upload contents choice
  | None => no_upload
  end.

(** One run of the script, from an empty store and an empty page. *)
Definition run (uploaded_file : option DataFrame) (choice : option Series)
  : result unit * state :=
  script uploaded_file choice (mkState [] []).

(** ** Vocabulary of the statements *)

(** The calls of [page_setup]. *)
Definition page_setup_calls : list call :=
  [st_set_page_config "Performance Data Analyzer";
   st_markdown "<style>[data-testid=stSidebar] { min-width: 400px; }</style>";
   st_sidebar_title "Upload Performance Data";
   st_sidebar_file_uploader "Choose a CSV file"].

(** The message and the hint shown for missing columns (lines 38 and 39). *)
Definition missing_columns_report (missing : list string) : list call :=
  [st_error (String.append
     "The uploaded CSV file is missing the following required columns: "
     (join missing));
   st_warning (String.append
     "Please ensure that the CSV file contains all required columns: "
     (join REQUIRED_COLUMNS))].

(** The message and the hint shown for inconsistent constants (lines 46 and
    47). *)
Definition inconsistent_report : list call :=
  [st_error "The uploaded CSV file contains inconsistent data.";
   st_warning (String.append
     "Please ensure that all constant columns have the same value: "
     (join CONSTANT_COLUMNS))].

(** Whether a constant column of a table holds exactly one value. *)
Definition single_valued (df : DataFrame) (col : string) : bool :=
  match Pandas.lookup col df with
  | Some s => Nat.eqb (Pandas.nunique s) 1
  | None => false
  end.

(** Whether every constant column of a table holds exactly one value. *)
Definition consistent (df : DataFrame) : bool :=
  forallb (single_valued df) CONSTANT_COLUMNS.

(** A table that passes both checks of the validation. *)
Definition valid (df : DataFrame) : Prop :=
  missing_columns (Pandas.columns df) = [] /\ consistent df = true.

(** A table without rows: every column is empty. *)
Definition no_rows (df : DataFrame) : Prop :=
  Forall (fun c => snd c = []) df.

(** The object [r] of the store holds the frame [df]. *)
Definition holds (s : state) (r : ref) (df : DataFrame) : Prop :=
  nth_error (heap s) r = Some df.

(** A computation that, run in any state where the object [r] holds [df],
    gives the same result and makes the same calls, and only adds objects to
    the store. *)
Definition uniform {A} (r : ref) (df : DataFrame) (m : M A) : Prop :=
  exists (res : result A) (extra : list DataFrame) (out : list call),
    forall s, holds s r df ->
      m s = (res, mkState (heap s ++ extra) (log s ++ out)).

(** The place of the first occurrence of a value in a column. *)
Fixpoint first_index (x : cell) (s : Series) : option nat :=
  match s with
  | [] => None
  | y :: rest =>
      if cell_eqb x y then Some 0 else option_map S (first_index x rest)
  end.

(** [u] lists the distinct values of the column [s], each once, in the order
    in which they first appear in [s]. *)
Definition first_seen_order (s u : Series) : Prop :=
  NoDup u
  /\ (forall x, In x u <-> In x s)
  /\ forall i j a b,
       nth_error u i = Some a -> nth_error u j = Some b -> i < j ->
       exists p q, first_index a s = Some p /\ first_index b s = Some q /\ p < q.

(** A text entry. *)
Definition text (c : cell) : Prop := exists t, c = Str t.

(** The lexicographic order of text entries, by code point. *)
Definition lexicographic (a b : cell) : Prop :=
  match a, b with
  | Str s, Str t => String.leb s t = true
  | _, _ => False
  end.

(** The calls that list, feature by feature, the KPI names of a listing. *)
Definition mapping_calls (listing : list (cell * list cell)) : list call :=
  flat_map (fun '(feature, kpis) =>
              st_expander feature :: map st_write_bullet kpis) listing.

(** What [sorted] returns when it returns. *)
Definition sorted_value (l : list cell) : list cell :=
  match sorted l with
  | Ok l' => l'
  | Raise _ => []
  end.

(** An entry that is a number or is missing. *)
Definition numeric (c : cell) : Prop := forall t, c <> Str t.

(** The numbers among the entries of a column, in order. *)
Fixpoint present (s : Series) : list Qc :=
  match s with
  | [] => []
  | Num q :: rest => q :: present rest
  | _ :: rest => present rest
  end.


(** [m] is the least of the numbers [g]. *)
Definition is_min (g : list Qc) (m : Qc) : Prop :=
  In m g /\ Forall (fun x => (m <= x)%Qc) g.

(** [m] is the greatest of the numbers [g]. *)
Definition is_max (g : list Qc) (m : Qc) : Prop :=
  In m g /\ Forall (fun x => (x <= m)%Qc) g.

(** The entry [c] of a table of statistics is the statistic [spec] of the
    numbers [g], and is missing when there is no number. *)
Definition statistic (spec : list Qc -> Qc -> Prop) (g : list Qc) (c : cell)
  : Prop :=
  match g with
  | [] => c = NaN
  | _ :: _ => exists m, c = Num m /\ spec g m
  end.

(** ** Sample uploads *)

(** A table with the required columns, one row for each measurement given
    as load, feature, KPI name and KPI value; the constant columns hold the
    same value on every row. *)
Definition upload (rows : list (string * string * cell * Z)) : DataFrame :=
  [("OS", map (fun _ => Str "Android") rows);
   ("Build Number", map (fun _ => Str "B42") rows);
   ("Target Device", map (fun _ => Str "Pixel") rows);
   ("OS Version", map (fun _ => Str "14") rows);
   ("Load", map (fun '(load, _, _, _) => Str load) rows);
   ("feature", map (fun '(_, feature, _, _) => Str feature) rows);
   ("KPI Name", map (fun '(_, _, name, _) => name) rows);
   ("KPI Value", map (fun '(_, _, _, value) => Num (Q2Qc (inject_Z value))) rows)].

(** Two loads with three measurements of one KPI each. *)
Definition latency_upload : DataFrame :=
  upload [("Low", "Login", Str "Latency", 1%Z);
          ("High", "Login", Str "Latency", 4%Z);
          ("Low", "Login", Str "Latency", 2%Z);
          ("High", "Login", Str "Latency", 5%Z);
          ("Low", "Login", Str "Latency", 3%Z);
          ("High", "Login", Str "Latency", 6%Z)].

(** Four KPI names, first seen in the order D, B, A, C. *)
Definition four_kpis_upload : DataFrame :=
  upload [("Low", "Login", Str "D", 1%Z);
          ("Low", "Login", Str "B", 2%Z);
          ("Low", "Sync", Str "D", 3%Z);
          ("Low", "Sync", Str "A", 4%Z);
          ("Low", "Sync", Str "C", 5%Z);
          ("Low", "Login", Str "B", 6%Z)].

(** Two KPI names. *)
Definition two_kpis_upload : DataFrame :=
  upload [("Low", "Login", Str "Boot", 1%Z);
          ("Low", "Login", Str "Latency", 2%Z);
          ("High", "Login", Str "Boot", 3%Z)].

(** A row whose KPI name is missing, after three rows of the same feature
    whose KPI names are there. *)
Definition missing_name_upload : DataFrame :=
  upload [("Low", "Login", Str "Boot", 1%Z);
          ("Low", "Login", Str "Latency", 2%Z);
          ("Low", "Login", Str "Sync", 3%Z);
          ("Low", "Login", NaN, 4%Z)].

(** An upload whose KPI values are text. *)
Definition text_values_upload : DataFrame :=
  Pandas.setitem latency_upload "KPI Value"
    [Str "fast"; Str "slow"; Str "fast"; Str "slow"; Str "fast"; Str "slow"].

(** An upload with a row whose feature is missing; the KPI name of that row
    is on no other row. *)
Definition missing_feature_upload : DataFrame :=
  Pandas.setitem two_kpis_upload "feature" [Str "Login"; NaN; Str "Login"].

(** The number of a cell, as a fraction in lowest terms. *)
Definition as_Q (c : cell) : option Q :=
  match c with
  | Num q => Some (this q)
  | _ => None
  end.

(** ** Vocabulary of the further statements *)

(** The first call of the rendering of a valid upload (line 51). *)
Definition title : call :=
  st_markdown "<h1 style='text-align: center; font-weight: bold;'>Performance Data Analysis</h1>".

(** The entries of a column are one value, missing entries apart, and the
    value is there. *)
Definition one_value (column : Series) : Prop :=
  exists v, v <> NaN /\ In v column
            /\ forall x, In x column -> x = v \/ x = NaN.

(** A frame whose columns all have [n] entries. *)
Definition rectangular (df : DataFrame) (n : nat) : Prop :=
  Forall (fun c => length (snd c) = n) df.

(** The order of the group keys: [a] comes no later than [b]. *)
Definition key_le (a b : cell) : Prop := Pandas.key_leb a b = true.

(** The exceptions that the values of an upload can bring about, once the
    upload has its columns and its constants. *)
Definition value_error (e : exn) : Prop :=
  e = TypeError \/ e = StreamlitDefaultNotInOptionsError.

(** A computation that behaves the same in every state where the object
    [r] holds [df], and that raises nothing but a [value_error]. *)
Definition safe {A} (r : ref) (df : DataFrame) (m : M A) : Prop :=
  exists (res : result A) (extra : list DataFrame) (out : list call),
    (forall s, holds s r df ->
       m s = (res, mkState (heap s ++ extra) (log s ++ out)))
    /\ forall e, res = Raise e -> value_error e.

(** An upload whose first row has no entry for the OS. *)
Definition missing_os_upload : DataFrame :=
  Pandas.setitem latency_upload "OS"
    [NaN; Str "Android"; NaN; Str "Android"; Str "Android"; NaN].

(** An upload that already has a column named [Run]. *)
Definition with_run_upload : DataFrame :=
  Pandas.setitem latency_upload "Run"
    [Str "a"; Str "b"; Str "c"; Str "d"; Str "e"; Str "f"].

(** The rows of [latency_upload] in another order. *)
Definition reordered_upload : DataFrame :=
  upload [("High", "Login", Str "Latency", 6%Z);
          ("High", "Login", Str "Latency", 5%Z);
          ("High", "Login", Str "Latency", 4%Z);
          ("Low", "Login", Str "Latency", 3%Z);
          ("Low", "Login", Str "Latency", 2%Z);
          ("Low", "Login", Str "Latency", 1%Z)].

(** The frame a computation returns, when it returns one. *)
Definition frame_of (x : result DataFrame) : DataFrame :=
  match x with
  | Ok frame => frame
  | Raise _ => []
  end.

(** * Properties *)

Unset Implicit Arguments.

(** ** Cells *)

Lemma cell_eqb_eq a b : cell_eqb a b = true <-> a = b.
Proof. unfold cell_eqb. destruct (cell_eq_dec a b); split; congruence. Qed.

Lemma cell_eqb_refl a : cell_eqb a a = true.
Proof. now apply cell_eqb_eq. Qed.

Lemma cell_eqb_neq a b : cell_eqb a b = false <-> a <> b.
Proof. unfold cell_eqb. destruct (cell_eq_dec a b); split; congruence. Qed.

Lemma in_list_In x l : in_list x l = true <-> In x l.
Proof.
  unfold in_list. rewrite existsb_exists. split.
  - intros [y [Hy He]]. apply cell_eqb_eq in He. now subst.
  - intros H. exists x. split; [assumption | apply cell_eqb_refl].
Qed.

Lemma in_list_not_In x l : in_list x l = false <-> ~ In x l.
Proof.
  rewrite <- in_list_In. destruct (in_list x l); split; congruence.
Qed.

Lemma str_in_In x l : str_in x l = true <-> In x l.
Proof.
  unfold str_in. rewrite existsb_exists. split.
  - intros [y [Hy He]]. apply String.eqb_eq in He. now subst.
  - intros H. exists x. split; [assumption | apply String.eqb_refl].
Qed.

(** ** Insertion sort *)

Section InsertionSortFacts.
Variable A : Type.
Variable leb : A -> A -> bool.

Lemma insert_perm x l : Permutation (x :: l) (insert leb x l).
Proof.
  induction l as [| y r IH]; simpl.
  - apply Permutation_refl.
  - destruct (leb x y).
    + apply Permutation_refl.
    + eapply perm_trans; [apply perm_swap |].
      now apply perm_skip.
Qed.

Lemma isort_perm l : Permutation l (isort leb l).
Proof.
  induction l as [| x r IH]; simpl.
  - apply perm_nil.
  - eapply perm_trans; [apply perm_skip, IH | apply insert_perm].
Qed.

Lemma isort_In x l : In x (isort leb l) <-> In x l.
Proof.
  split; intros H.
  - eapply Permutation_in; [apply Permutation_sym, isort_perm | exact H].
  - eapply Permutation_in; [apply isort_perm | exact H].
Qed.

Lemma isort_NoDup l : NoDup l -> NoDup (isort leb l).
Proof. intros H. eapply Permutation_NoDup; [apply isort_perm | exact H]. Qed.

Hypothesis leb_total : forall x y, leb x y = true \/ leb y x = true.

Let le (x y : A) : Prop := leb x y = true.

Lemma insert_HdRel a x l :
  le a x -> HdRel le a l -> HdRel le a (insert leb x l).
Proof.
  intros Hax Hal. destruct l as [| y r]; simpl.
  - now constructor.
  - destruct (leb x y); constructor; [assumption |].
    now inversion Hal.
Qed.

Lemma insert_sorted x l : Sorted le l -> Sorted le (insert leb x l).
Proof.
  induction 1 as [| y r Hr IH Hy]; simpl.
  - repeat constructor.
  - destruct (leb x y) eqn:E.
    + constructor; [now constructor | now constructor].
    + constructor; [assumption |].
      apply insert_HdRel; [| assumption].
      destruct (leb_total x y) as [H | H]; [congruence | exact H].
Qed.

Lemma isort_sorted l : Sorted le (isort leb l).
Proof.
  induction l as [| x r IH]; simpl.
  - constructor.
  - now apply insert_sorted.
Qed.

End InsertionSortFacts.

(** ** Frames and columns *)

Lemma lookup_In_columns col df :
  In col (Pandas.columns df) <-> exists s, Pandas.lookup col df = Some s.
Proof.
  induction df as [| [name s] rest IH]; simpl.
  - split; [tauto | intros [s H]; discriminate].
  - destruct (String.eqb col name) eqn:E.
    + apply String.eqb_eq in E. subst. split; eauto.
    + apply String.eqb_neq in E. rewrite <- IH. split.
      * intros [H | H]; [congruence | exact H].
      * auto.
Qed.

Lemma lookup_getitem_mask col df mask :
  Pandas.lookup col (Pandas.getitem_mask df mask)
  = option_map (Pandas.select mask) (Pandas.lookup col df).
Proof.
  induction df as [| [name s] rest IH]; simpl; [reflexivity |].
  destruct (String.eqb col name); [reflexivity | exact IH].
Qed.

Lemma lookup_setitem_eq col df s :
  Pandas.lookup col (Pandas.setitem df col s) = Some s.
Proof.
  induction df as [| [name old] rest IH]; simpl.
  - now rewrite String.eqb_refl.
  - destruct (String.eqb col name) eqn:E; simpl; rewrite E; [reflexivity | exact IH].
Qed.

Lemma lookup_setitem_ne col col' df s :
  col <> col' ->
  Pandas.lookup col' (Pandas.setitem df col s) = Pandas.lookup col' df.
Proof.
  intros Hne. induction df as [| [name old] rest IH]; simpl.
  - destruct (String.eqb col' col) eqn:E; [| reflexivity].
    apply String.eqb_eq in E. congruence.
  - destruct (String.eqb col name) eqn:E; simpl.
    + apply String.eqb_eq in E. subst name.
      destruct (String.eqb col' col) eqn:E'; [| reflexivity].
      apply String.eqb_eq in E'. congruence.
    + destruct (String.eqb col' name); [reflexivity | exact IH].
Qed.

(** ** Validation: the required columns *)

Lemma missing_columns_spec cols col :
  In col (missing_columns cols) <-> In col REQUIRED_COLUMNS /\ ~ In col cols.
Proof.
  unfold missing_columns. rewrite filter_In, negb_true_iff.
  rewrite <- (str_in_In col cols).
  destruct (str_in col cols); intuition congruence.
Qed.

Lemma REQUIRED_COLUMNS_NoDup : NoDup REQUIRED_COLUMNS.
Proof.
  unfold REQUIRED_COLUMNS.
  repeat (constructor; [simpl; intuition discriminate |]). constructor.
Qed.

Lemma missing_columns_NoDup cols : NoDup (missing_columns cols).
Proof. apply NoDup_filter, REQUIRED_COLUMNS_NoDup. Qed.

Lemma missing_columns_nil cols :
  missing_columns cols = [] <-> (forall col, In col REQUIRED_COLUMNS -> In col cols).
Proof.
  split.
  - intros H col Hin.
    destruct (in_dec string_dec col cols) as [Hc | Hc]; [exact Hc |].
    assert (Hm : In col (missing_columns cols)) by now apply missing_columns_spec.
    rewrite H in Hm. destruct Hm.
  - intros H. destruct (missing_columns cols) as [| col rest] eqn:E; [reflexivity |].
    assert (Hm : In col (missing_columns cols)) by (rewrite E; now left).
    apply missing_columns_spec in Hm. destruct Hm as [Hr Hc].
    exfalso. auto.
Qed.

Lemma required_lookup df col :
  missing_columns (Pandas.columns df) = [] ->
  In col REQUIRED_COLUMNS ->
  exists s, Pandas.lookup col df = Some s.
Proof.
  intros H Hin. apply lookup_In_columns.
  now apply (proj1 (missing_columns_nil _) H).
Qed.

Lemma CONSTANT_COLUMNS_required col :
  In col CONSTANT_COLUMNS -> In col REQUIRED_COLUMNS.
Proof. unfold CONSTANT_COLUMNS, REQUIRED_COLUMNS. simpl. tauto. Qed.

Lemma run_missing contents choice col rest :
  missing_columns (Pandas.columns contents) = col :: rest ->
  run (Some contents) choice
  = (Raise StopException,
     mkState [contents]
             (page_setup_calls ++ missing_columns_report (col :: rest))).
Proof.
  intros H. unfold run, script, on_upload, bind, page_setup, st, read_csv,
    alloc, df_columns, deref, ret, st_stop, raise. simpl.
  rewrite H. reflexivity.
Qed.

(** C1.  When the upload lacks a required column, the script shows the error
    that lists the missing columns and the hint, and stops: these are its
    only calls after the page setup, and the only object is the uploaded
    table.  The columns listed are exactly the required columns that the
    upload does not have, each once. *)
Theorem missing_columns_reported (contents : DataFrame) (choice : option Series) :
  (exists col, In col REQUIRED_COLUMNS /\ ~ In col (Pandas.columns contents)) ->
  let missing := missing_columns (Pandas.columns contents) in
  (forall col, In col missing <->
               In col REQUIRED_COLUMNS /\ ~ In col (Pandas.columns contents))
  /\ NoDup missing
  /\ run (Some contents) choice
     = (Raise StopException,
        mkState [contents] (page_setup_calls ++ missing_columns_report missing)).
Proof.
  intros [col Hcol] missing. subst missing.
  split; [intros c; apply missing_columns_spec |].
  split; [apply missing_columns_NoDup |].
  destruct (missing_columns (Pandas.columns contents)) as [| c rest] eqn:E.
  - apply missing_columns_spec in Hcol. rewrite E in Hcol. destruct Hcol.
  - now apply run_missing.
Qed.

(** ** The store *)

Lemma holds_deref s r df : holds s r df -> nth r (heap s) [] = df.
Proof. intros H. now apply nth_error_nth. Qed.

Lemma holds_app s r df extra out :
  holds s r df -> holds (mkState (heap s ++ extra) (log s ++ out)) r df.
Proof.
  unfold holds. simpl. intros H.
  rewrite nth_error_app1; [exact H |].
  apply nth_error_Some. congruence.
Qed.

Lemma state_same s : mkState (heap s ++ []) (log s ++ []) = s.
Proof. destruct s. simpl. now rewrite !app_nil_r. Qed.

Lemma uniform_ret {A} r df (a : A) : uniform r df (ret a).
Proof.
  exists (Ok a), [], []. intros s _. unfold ret. now rewrite state_same.
Qed.

Lemma uniform_lift {A} r df (x : result A) : uniform r df (lift x).
Proof.
  exists x, [], []. intros s _. unfold lift. now rewrite state_same.
Qed.

Lemma uniform_st r df c : uniform r df (st c).
Proof.
  exists (Ok tt), [], [c]. intros s _. unfold st. now rewrite app_nil_r.
Qed.

Lemma uniform_bind {A B} r df (m : M A) (f : A -> M B) :
  uniform r df m -> (forall a, uniform r df (f a)) -> uniform r df (bind m f).
Proof.
  intros [res [extra [out Hm]]] Hf.
  destruct res as [a | e].
  - destruct (Hf a) as [res' [extra' [out' Hfa]]].
    exists res', (extra ++ extra'), (out ++ out'). intros s Hs.
    unfold bind. rewrite (Hm s Hs).
    rewrite (Hfa _ (holds_app _ _ _ extra out Hs)). simpl.
    now rewrite !app_assoc.
  - exists (Raise e), extra, out. intros s Hs.
    unfold bind. now rewrite (Hm s Hs).
Qed.

Lemma uniform_deref r df : uniform r df (deref r).
Proof.
  exists (Ok df), [], []. intros s Hs. unfold deref.
  now rewrite (holds_deref _ _ _ Hs), state_same.
Qed.

Lemma uniform_getitem r df col : uniform r df (df_getitem r col).
Proof.
  unfold df_getitem. apply uniform_bind; [apply uniform_deref |].
  intros a. apply uniform_lift.
Qed.

Lemma uniform_for_each {A} r df (l : list A) (body : A -> M unit) :
  (forall x, uniform r df (body x)) -> uniform r df (for_each l body).
Proof.
  intros H. induction l as [| x rest IH]; simpl.
  - apply uniform_ret.
  - apply uniform_bind; [apply H | intros _; exact IH].
Qed.

(** ** Validation: the constant columns *)

Lemma getitem_run s r df col x :
  holds s r df -> Pandas.lookup col df = Some x ->
  df_getitem r col s = (Ok x, s).
Proof.
  intros Hs Hx. unfold df_getitem, bind, deref, lift, Pandas.getitem.
  now rewrite (holds_deref _ _ _ Hs), Hx.
Qed.

Lemma all_of_single_valued s r df cols :
  holds s r df ->
  (forall col, In col cols -> exists x, Pandas.lookup col df = Some x) ->
  all_of cols (fun col => x <- df_getitem r col ;;
                          ret (Nat.eqb (Pandas.nunique x) 1)) s
  = (Ok (forallb (single_valued df) cols), s).
Proof.
  intros Hs. induction cols as [| col rest IH]; intros Hcols; simpl.
  - reflexivity.
  - destruct (Hcols col (or_introl eq_refl)) as [x Hx].
    unfold bind at 1. unfold bind at 1.
    rewrite (getitem_run _ _ _ col _ Hs Hx). unfold ret at 1.
    unfold single_valued at 1. rewrite Hx.
    destruct (Nat.eqb (Pandas.nunique x) 1); simpl.
    + apply IH. intros c Hc. apply Hcols. now right.
    + reflexivity.
Qed.

Lemma csv_status_run s r df :
  holds s r df ->
  missing_columns (Pandas.columns df) = [] ->
  csv_status r s = (Ok (consistent df), s).
Proof.
  intros Hs Hm. unfold csv_status, consistent.
  apply all_of_single_valued; [exact Hs |].
  intros col Hc. apply required_lookup; [exact Hm |].
  now apply CONSTANT_COLUMNS_required.
Qed.

(** What the script does once the columns are all there. *)
Lemma run_checked contents choice :
  missing_columns (Pandas.columns contents) = [] ->
  run (Some contents) choice
  = if consistent contents
    then render 0 choice (mkState [contents] page_setup_calls)
    else (Ok tt, mkState [contents] (page_setup_calls ++ inconsistent_report)).
Proof.
  intros H. unfold run, script, on_upload, bind, page_setup, st, read_csv,
    alloc, df_columns, deref, ret. simpl.
  rewrite H.
  rewrite (csv_status_run _ 0 contents); [| reflexivity | exact H].
  destruct (consistent contents); reflexivity.
Qed.

(** ** The rows of one KPI *)

Lemma nth_at_length {A} (h : list A) x t d : nth (length h) (h ++ x :: t) d = x.
Proof. induction h as [| y h IH]; simpl; [reflexivity | exact IH]. Qed.

Lemma nth_second_new (h : list DataFrame) a b :
  nth (S (length h)) (h ++ [a; b]) [] = b.
Proof.
  replace (h ++ [a; b]) with ((h ++ [a]) ++ b :: []) by now rewrite <- app_assoc.
  replace (S (length h)) with (length (h ++ [a]))
    by (rewrite length_app; simpl; lia).
  apply nth_at_length.
Qed.

Lemma replace_at_length (h : list DataFrame) x y t :
  replace_at (length h) y (h ++ x :: t) = h ++ y :: t.
Proof. induction h as [| z h IH]; simpl; [reflexivity | now rewrite IH]. Qed.

(** Lines 115 and 116, step by step: the filtered rows and their copy are
    two new objects, and the run index is written into the copy. *)
Lemma make_kpi_data_run s r df kpi :
  holds s r df ->
  make_kpi_data r kpi s =
  match Pandas.getitem df "KPI Name" with
  | Raise e => (Raise e, s)
  | Ok names =>
      let filtered := Pandas.getitem_mask df (Pandas.eq_scalar names kpi) in
      match Pandas.getitem filtered "Load" with
      | Raise e => (Raise e, mkState (heap s ++ [filtered; filtered]) (log s))
      | Ok loads =>
          (Ok (S (length (heap s))),
           mkState (heap s ++ [filtered;
                               Pandas.setitem filtered "Run"
                                 (Pandas.add1 (Pandas.cumcount loads))])
                   (log s))
      end
  end.
Proof.
  intros Hs.
  unfold make_kpi_data, df_getitem, df_getitem_mask, df_copy, df_setitem,
    bind, deref, alloc, lift, update, ret. simpl.
  rewrite (holds_deref _ _ _ Hs).
  destruct (Pandas.getitem df "KPI Name") as [names | e]; [| reflexivity].
  simpl. rewrite nth_at_length. rewrite length_app. simpl.
  rewrite Nat.add_1_r.
  set (filtered := Pandas.getitem_mask df (Pandas.eq_scalar names kpi)).
  replace ((heap s ++ [filtered]) ++ [filtered])
    with ((heap s ++ [filtered]) ++ filtered :: [])
    by reflexivity.
  assert (Hlen : S (length (heap s)) = length (heap s ++ [filtered]))
    by (rewrite length_app; simpl; lia).
  rewrite Hlen, nth_at_length.
  destruct (Pandas.getitem filtered "Load") as [loads | e].
  - rewrite replace_at_length. rewrite <- Hlen.
    now rewrite <- app_assoc.
  - now rewrite <- app_assoc.
Qed.

Lemma holds_grow s r df extra calls :
  holds s r df -> holds (mkState (heap s ++ extra) calls) r df.
Proof.
  unfold holds. simpl. intros H.
  rewrite nth_error_app1; [exact H |].
  apply nth_error_Some. congruence.
Qed.

(** The dtype of a column of the upload. *)
Lemma numeric_dtype_run s r df col :
  holds s r df ->
  numeric_dtype r col s
  = (match Pandas.getitem df col with
     | Ok x => if Pandas.text_dtype x then Raise TypeError else Ok tt
     | Raise e => Raise e
     end, s).
Proof.
  intros Hs. unfold numeric_dtype, df_getitem, bind, deref, lift, raise, ret.
  rewrite (holds_deref _ _ _ Hs).
  destruct (Pandas.getitem df col) as [x | e]; [| reflexivity].
  destruct (Pandas.text_dtype x); reflexivity.
Qed.

(** The analysis of one KPI, once lines 115 and 116 have made the frame:
    where it stops and what it has called by then. *)
Lemma kpi_analysis_run r df kpi filtered frame :
  (forall s, holds s r df ->
     make_kpi_data r kpi s
     = (Ok (S (length (heap s))), mkState (heap s ++ [filtered; frame]) (log s))) ->
  forall s, holds s r df ->
    kpi_analysis r kpi s
    = let store := heap s ++ [filtered; frame] in
      let head := [st_subheader_kpi kpi; st_markdown "#### Trend Chart";
                   st_altair_chart mark_line frame;
                   st_markdown "#### Bar Chart"] in
      match Pandas.getitem df "KPI Value" with
      | Raise e => (Raise e, mkState store (log s ++ head))
      | Ok vals =>
          if Pandas.text_dtype vals
          then (Raise TypeError, mkState store (log s ++ head))
          else
            match mean_data frame with
            | Raise e => (Raise e, mkState store (log s ++ head))
            | Ok bars =>
                match summary frame with
                | Raise e =>
                    (Raise e,
                     mkState store
                       (log s ++ head
                        ++ [st_altair_chart mark_bar bars;
                            st_markdown "#### Summary Statistics by Load"]))
                | Ok table =>
                    (Ok tt,
                     mkState store
                       (log s ++ head
                        ++ [st_altair_chart mark_bar bars;
                            st_markdown "#### Summary Statistics by Load";
                            st_dataframe table]))
                end
            end
      end.
Proof.
  intros Hrun s Hs. cbv zeta.
  unfold kpi_analysis, bind at 1 2 3. unfold st at 1 2.
  rewrite Hrun by exact Hs.
  unfold bind at 1. unfold deref at 1. unfold bind at 1. unfold st at 1.
  unfold bind at 1. unfold st at 1. unfold bind at 1.
  rewrite (numeric_dtype_run _ r df "KPI Value")
    by (cbn [heap log]; apply (holds_grow s r df _ _ Hs)).
  cbn [heap log].
  rewrite nth_second_new.
  destruct (Pandas.getitem df "KPI Value") as [vals | e];
    [| now rewrite <- !app_assoc].
  destruct (Pandas.text_dtype vals); [now rewrite <- !app_assoc |].
  unfold bind, deref, st, lift. cbn [heap log].
  rewrite nth_second_new.
  destruct (mean_data frame) as [bars | e]; [| now rewrite <- !app_assoc].
  destruct (summary frame) as [table | e]; now rewrite <- !app_assoc.
Qed.

Lemma uniform_kpi_analysis r df kpi : uniform r df (kpi_analysis r kpi).
Proof.
  destruct (Pandas.getitem df "KPI Name") as [names | e] eqn:E1.
  2:{ exists (Raise e), [],
        [st_subheader_kpi kpi; st_markdown "#### Trend Chart"].
      intros s Hs. unfold kpi_analysis, bind at 1 2 3. unfold st at 1 2.
      rewrite (make_kpi_data_run _ r df kpi) by exact Hs. rewrite E1.
      cbn [heap log]. now rewrite app_nil_r, <- app_assoc. }
  set (filtered := Pandas.getitem_mask df (Pandas.eq_scalar names kpi)).
  destruct (Pandas.getitem filtered "Load") as [loads | e] eqn:E2.
  2:{ exists (Raise e), [filtered; filtered],
        [st_subheader_kpi kpi; st_markdown "#### Trend Chart"].
      intros s Hs. unfold kpi_analysis, bind at 1 2 3. unfold st at 1 2.
      rewrite (make_kpi_data_run _ r df kpi) by exact Hs. rewrite E1.
      cbv zeta. fold filtered. rewrite E2.
      cbn [heap log]. now rewrite <- app_assoc. }
  set (frame := Pandas.setitem filtered "Run" (Pandas.add1 (Pandas.cumcount loads))).
  assert (Hrun : forall s, holds s r df ->
            make_kpi_data r kpi s
            = (Ok (S (length (heap s))),
               mkState (heap s ++ [filtered; frame]) (log s))).
  { intros s Hs. rewrite (make_kpi_data_run _ _ _ kpi Hs), E1. cbv zeta.
    fold filtered. now rewrite E2. }
  pose proof (kpi_analysis_run r df kpi filtered frame Hrun) as H.
  cbv zeta in H.
  destruct (Pandas.getitem df "KPI Value") as [vals | e];
    [| eexists _, _, _; exact H].
  destruct (Pandas.text_dtype vals); [eexists _, _, _; exact H |].
  destruct (mean_data frame) as [bars | e]; [| eexists _, _, _; exact H].
  destruct (summary frame) as [table | e]; eexists _, _, _; exact H.
Qed.

Lemma uniform_extract r df : uniform r df (extract r).
Proof.
  unfold extract, first_of.
  repeat (apply uniform_bind;
          [first [apply uniform_getitem | apply uniform_lift
                 | apply uniform_bind; [apply uniform_getitem | intros ?; apply uniform_lift]]
          | intros ?]).
  apply uniform_ret.
Qed.

Lemma uniform_kpi_mapping r df : uniform r df (kpi_mapping r).
Proof.
  unfold kpi_mapping.
  apply uniform_bind; [apply uniform_st | intros _].
  apply uniform_bind; [apply uniform_getitem | intros features].
  apply uniform_bind; [apply uniform_getitem | intros names].
  apply uniform_for_each. intros [feature kpis].
  apply uniform_bind; [apply uniform_st | intros _].
  apply uniform_bind; [apply uniform_lift | intros listing].
  apply uniform_for_each. intros kpi. apply uniform_st.
Qed.

Lemma uniform_preview r df m : uniform r df (preview m).
Proof.
  unfold preview.
  repeat (apply uniform_bind; [apply uniform_st | intros _]).
  apply uniform_st.
Qed.

Lemma uniform_multiselect r df choice label options default :
  uniform r df (multiselect choice label options default).
Proof.
  unfold multiselect.
  apply uniform_bind; [apply uniform_st | intros _].
  destruct (in_list NaN default); [| apply uniform_ret].
  exists (Raise StreamlitDefaultNotInOptionsError), [], []. intros s _.
  unfold raise. now rewrite state_same.
Qed.

Lemma uniform_after_st {A} r df c (m : M A) :
  uniform r df m ->
  exists res extra out,
    forall s, holds s r df ->
      bind (st c) (fun _ => m) s
      = (res, mkState (heap s ++ extra) (log s ++ c :: out)).
Proof.
  intros [res [extra [out Hm]]]. exists res, extra, out. intros s Hs.
  unfold bind, st.
  rewrite (Hm (mkState (heap s) (log s ++ [c]))).
  - simpl. now rewrite <- app_assoc.
  - exact Hs.
Qed.

(** The title is the first call of the rendering. *)
Lemma render_begins r df choice :
  exists res extra out,
    forall s, holds s r df ->
      render r choice s
      = (res,
         mkState (heap s ++ extra)
                 (log s ++ st_markdown "<h1 style='text-align: center; font-weight: bold;'>Performance Data Analysis</h1>" :: out)).
Proof.
  unfold render. apply uniform_after_st.
  apply uniform_bind; [apply uniform_extract | intros m].
  apply uniform_bind; [apply uniform_st | intros _].
  apply uniform_bind; [apply uniform_multiselect | intros selected].
  apply uniform_bind; [apply uniform_preview | intros _].
  apply uniform_bind; [apply uniform_kpi_mapping | intros _].
  apply uniform_for_each. intros kpi. apply uniform_kpi_analysis.
Qed.

Lemma no_rows_lookup df col s :
  no_rows df -> Pandas.lookup col df = Some s -> s = [].
Proof.
  unfold no_rows. induction df as [| [name x] rest IH]; simpl; intros Hn Hl.
  - discriminate.
  - inversion Hn as [| ? ? Hx Hrest]; subst. simpl in Hx.
    destruct (String.eqb col name); [congruence | now apply IH].
Qed.

Lemma forallb_false {A} (f : A -> bool) l :
  forallb f l = false -> exists x, In x l /\ f x = false.
Proof.
  induction l as [| x rest IH]; simpl; [discriminate |].
  destruct (f x) eqn:E; simpl.
  - intros H. destruct (IH H) as [y [Hy Hf]]. eauto.
  - intros _. eauto.
Qed.

Lemma consistent_false df :
  missing_columns (Pandas.columns df) = [] ->
  consistent df = false <->
  exists col s, In col CONSTANT_COLUMNS /\ Pandas.lookup col df = Some s
                /\ Pandas.nunique s <> 1.
Proof.
  intros Hm. unfold consistent. split.
  - intros H. apply forallb_false in H. destruct H as [col [Hc Hs]].
    destruct (required_lookup df col Hm (CONSTANT_COLUMNS_required col Hc)) as [s Hl].
    exists col, s. repeat split; try assumption.
    unfold single_valued in Hs. rewrite Hl in Hs. now apply Nat.eqb_neq.
  - intros [col [s [Hc [Hl Hn]]]].
    destruct (forallb (single_valued df) CONSTANT_COLUMNS) eqn:E; [| reflexivity].
    rewrite forallb_forall in E. specialize (E col Hc).
    unfold single_valued in E. rewrite Hl in E. apply Nat.eqb_eq in E. contradiction.
Qed.

(** C2.  When the upload has every required column, the script answers with
    the message and the hint for inconsistent data, and nothing else, exactly
    when one of the four constant columns holds a number of distinct values
    other than one.  A table without rows is such an upload: its constant
    columns hold no value. *)
Theorem inconsistent_constants_iff (contents : DataFrame) (choice : option Series) :
  missing_columns (Pandas.columns contents) = [] ->
  (run (Some contents) choice
   = (Ok tt, mkState [contents] (page_setup_calls ++ inconsistent_report))
   <-> exists col s, In col CONSTANT_COLUMNS
                     /\ Pandas.lookup col contents = Some s
                     /\ Pandas.nunique s <> 1)
  /\ (no_rows contents ->
      run (Some contents) choice
      = (Ok tt, mkState [contents] (page_setup_calls ++ inconsistent_report))).
Proof.
  intros Hm.
  assert (Hiff : run (Some contents) choice
                 = (Ok tt, mkState [contents] (page_setup_calls ++ inconsistent_report))
                 <-> consistent contents = false).
  { rewrite (run_checked contents choice Hm). split.
    - destruct (consistent contents) eqn:E; [| reflexivity].
      intros H. exfalso.
      destruct (render_begins 0 contents choice) as [res [extra [out Hr]]].
      rewrite (Hr (mkState [contents] page_setup_calls) eq_refl) in H.
      simpl in H. inversion H.
    - intros E. now rewrite E. }
  split.
  - rewrite Hiff. now apply consistent_false.
  - intros Hn. apply Hiff. apply (consistent_false _ Hm).
    destruct (required_lookup contents "OS" Hm) as [s Hs]; [simpl; tauto |].
    exists "OS", s. split; [simpl; tauto |]. split; [exact Hs |].
    rewrite (no_rows_lookup _ _ _ Hn Hs). discriminate.
Qed.

(** C8.  When the validation fails, for missing columns or for inconsistent
    constants, the script makes two calls after the page setup, an error and
    a warning, and no other: no title, no metadata, no listing, no chart and
    no table.  The store holds the uploaded table and nothing else, so no
    rows were filtered or copied for an analysis. *)
Theorem validation_failure_is_terminal (contents : DataFrame) (choice : option Series) :
  missing_columns (Pandas.columns contents) <> [] \/ consistent contents = false ->
  exists res message hint,
    run (Some contents) choice
    = (res, mkState [contents]
                    (page_setup_calls ++ [st_error message; st_warning hint])).
Proof.
  intros H.
  destruct (missing_columns (Pandas.columns contents)) as [| col rest] eqn:E.
  - destruct H as [H | H]; [congruence |].
    rewrite (run_checked contents choice E), H.
    unfold inconsistent_report. eauto.
  - rewrite (run_missing contents choice _ _ E). unfold missing_columns_report. eauto.
Qed.

(** ** Run indices *)

Lemma Qc_of_nat_succ n : (Qc_of_nat n + 1)%Qc = Qc_of_nat (S n).
Proof.
  apply Qc_is_canon. unfold Qc_of_nat, Qcplus, Q2Qc. cbn [this].
  rewrite !Qred_correct. rewrite Nat2Z.inj_succ. unfold Z.succ.
  rewrite inject_Z_plus. reflexivity.
Qed.

Lemma Qc_of_nat_inj a b : Qc_of_nat a = Qc_of_nat b -> a = b.
Proof.
  unfold Qc_of_nat. intros H. apply Q2Qc_eq_iff in H.
  unfold Qeq in H. simpl in H. lia.
Qed.

Lemma Int_seq_NoDup a n : NoDup (map Int (seq a n)).
Proof.
  apply Injective_map_NoDup; [| apply seq_NoDup].
  intros x y H. apply Qc_of_nat_inj. unfold Int in H. congruence.
Qed.

Lemma group_cons k v keys vals l :
  Pandas.group (k :: keys) (v :: vals) l
  = if cell_eqb k l then v :: Pandas.group keys vals l
    else Pandas.group keys vals l.
Proof. unfold Pandas.group. simpl. destruct (cell_eqb k l); reflexivity. Qed.

Lemma cumcount_from_length seen keys :
  length (Pandas.cumcount_from seen keys) = length keys.
Proof.
  revert seen. induction keys as [| k rest IH]; intros seen; simpl;
    [reflexivity | now rewrite IH].
Qed.

Lemma add1_length s : length (Pandas.add1 s) = length s.
Proof. apply length_map. Qed.

(** Within the rows of one key the numbers given by [cumcount() + 1] count
    up by one from the number of rows of that key already seen. *)
Lemma cumcount_from_group seen keys l :
  l <> NaN ->
  Pandas.group keys (Pandas.add1 (Pandas.cumcount_from seen keys)) l
  = map Int (seq (S (count_occ cell_eq_dec seen l)) (count_occ cell_eq_dec keys l)).
Proof.
  intros Hl. revert seen. induction keys as [| k rest IH]; intros seen.
  - reflexivity.
  - simpl Pandas.cumcount_from. simpl Pandas.add1. rewrite group_cons.
    unfold cell_eqb. simpl count_occ.
    destruct (cell_eq_dec k l) as [E | E].
    + subst k. rewrite IH. simpl count_occ.
      destruct (cell_eq_dec l l) as [_ | N]; [| congruence].
      destruct l as [| t | q]; [congruence | |]; simpl;
        unfold Int; now rewrite Qc_of_nat_succ.
    + rewrite IH. simpl count_occ.
      destruct (cell_eq_dec k l) as [E' | _]; [congruence | reflexivity].
Qed.

Lemma cumcount_group keys l :
  l <> NaN ->
  Pandas.group keys (Pandas.add1 (Pandas.cumcount keys)) l
  = map Int (seq 1 (count_occ cell_eq_dec keys l)).
Proof. intros Hl. apply (cumcount_from_group [] keys l Hl). Qed.

(** Lines 115 and 116 on a table that has the columns: the new object, and
    the frame it holds. *)
Lemma make_kpi_data_ok s r df kpi names loads0 :
  holds s r df ->
  Pandas.lookup "KPI Name" df = Some names ->
  Pandas.lookup "Load" df = Some loads0 ->
  let mask := Pandas.eq_scalar names kpi in
  let filtered := Pandas.getitem_mask df mask in
  let frame := Pandas.setitem filtered "Run"
                 (Pandas.add1 (Pandas.cumcount (Pandas.select mask loads0))) in
  make_kpi_data r kpi s
  = (Ok (S (length (heap s))), mkState (heap s ++ [filtered; frame]) (log s)).
Proof.
  intros Hs Hn Hl mask filtered frame.
  rewrite (make_kpi_data_run _ _ _ kpi Hs).
  unfold Pandas.getitem. rewrite Hn. cbv zeta.
  rewrite lookup_getitem_mask, Hl. reflexivity.
Qed.

(** C3.  For a table with the required columns and any KPI name, lines 115
    and 116 give a frame whose [Load] column is that of the rows with this
    KPI name, in their order, and whose [Run] column numbers, for every load,
    the rows of that load 1, 2, ..., n in row order, n being the number of
    rows of the load; no number is given twice within a load. *)
Theorem run_indices_contiguous (s : state) (data_set : ref) (df : DataFrame)
        (kpi : cell) :
  holds s data_set df ->
  missing_columns (Pandas.columns df) = [] ->
  exists kpi_data s' names loads0 loads runs,
    make_kpi_data data_set kpi s = (Ok kpi_data, s')
    /\ Pandas.lookup "KPI Name" df = Some names
    /\ Pandas.lookup "Load" df = Some loads0
    /\ loads = Pandas.select (Pandas.eq_scalar names kpi) loads0
    /\ Pandas.getitem (nth kpi_data (heap s') []) "Load" = Ok loads
    /\ Pandas.getitem (nth kpi_data (heap s') []) "Run" = Ok runs
    /\ length runs = length loads
    /\ forall l, l <> NaN ->
         Pandas.group loads runs l
         = map Int (seq 1 (count_occ cell_eq_dec loads l))
         /\ NoDup (Pandas.group loads runs l).
Proof.
  intros Hs Hm.
  destruct (required_lookup df "KPI Name" Hm) as [names Hn]; [simpl; tauto |].
  destruct (required_lookup df "Load" Hm) as [loads0 Hl]; [simpl; tauto |].
  pose proof (make_kpi_data_ok s data_set df kpi names loads0 Hs Hn Hl) as Hrun.
  cbv zeta in Hrun.
  set (mask := Pandas.eq_scalar names kpi) in *.
  set (loads := Pandas.select mask loads0) in *.
  eexists _, _, names, loads0, loads, (Pandas.add1 (Pandas.cumcount loads)).
  split; [exact Hrun |].
  simpl heap. rewrite nth_second_new.
  split; [exact Hn |]. split; [exact Hl |]. split; [reflexivity |].
  split; [| split; [| split]].
  - unfold Pandas.getitem.
    rewrite lookup_setitem_ne by discriminate.
    rewrite lookup_getitem_mask, Hl. reflexivity.
  - unfold Pandas.getitem. now rewrite lookup_setitem_eq.
  - rewrite add1_length. apply cumcount_from_length.
  - intros l Hne. rewrite (cumcount_group loads l Hne).
    split; [reflexivity | apply Int_seq_NoDup].
Qed.

(** ** The analysis of one KPI, when nothing raises *)

Lemma kpi_analysis_ok s r df kpi names loads0 vals0 bars table :
  holds s r df ->
  Pandas.lookup "KPI Name" df = Some names ->
  Pandas.lookup "Load" df = Some loads0 ->
  Pandas.lookup "KPI Value" df = Some vals0 ->
  Pandas.text_dtype vals0 = false ->
  let mask := Pandas.eq_scalar names kpi in
  let filtered := Pandas.getitem_mask df mask in
  let frame := Pandas.setitem filtered "Run"
                 (Pandas.add1 (Pandas.cumcount (Pandas.select mask loads0))) in
  mean_data frame = Ok bars ->
  summary frame = Ok table ->
  kpi_analysis r kpi s
  = (Ok tt,
     mkState (heap s ++ [filtered; frame])
             (log s ++ [st_subheader_kpi kpi;
                        st_markdown "#### Trend Chart";
                        st_altair_chart mark_line frame;
                        st_markdown "#### Bar Chart";
                        st_altair_chart mark_bar bars;
                        st_markdown "#### Summary Statistics by Load";
                        st_dataframe table])).
Proof.
  intros Hs Hn Hl Hv Hnum mask filtered frame Hb Ht.
  rewrite (kpi_analysis_run r df kpi filtered frame);
    [| intros t Ht'; now apply make_kpi_data_ok | exact Hs].
  cbv zeta. unfold Pandas.getitem. now rewrite Hv, Hnum, Hb, Ht.
Qed.

(** ** A KPI name that the table does not have *)

Lemma select_none mask (s : Series) :
  Forall (fun b => b = false) mask -> Pandas.select mask s = [].
Proof.
  intros H. revert s. induction H as [| b m Hb Hm IH]; intros s.
  - reflexivity.
  - destruct s as [| x r]; simpl; [reflexivity |]. subst b. apply IH.
Qed.

Lemma eq_scalar_absent names kpi :
  ~ In kpi names -> Forall (fun b => b = false) (Pandas.eq_scalar names kpi).
Proof.
  intros H. unfold Pandas.eq_scalar. apply Forall_map, Forall_forall.
  intros c Hc. unfold Pandas.py_eq.
  destruct (cell_eqb c kpi) eqn:E.
  - apply cell_eqb_eq in E. subst. contradiction.
  - apply andb_false_r.
Qed.

Lemma getitem_mask_none df mask :
  Forall (fun b => b = false) mask -> no_rows (Pandas.getitem_mask df mask).
Proof.
  intros H. unfold no_rows, Pandas.getitem_mask. apply Forall_map, Forall_forall.
  intros [name s] _. simpl. now apply select_none.
Qed.

Lemma setitem_no_rows df col :
  no_rows df -> no_rows (Pandas.setitem df col []).
Proof.
  unfold no_rows. induction df as [| [name s] rest IH]; simpl; intros H.
  - now repeat constructor.
  - inversion H as [| ? ? Hs Hrest]; subst.
    destruct (String.eqb col name); constructor; auto.
Qed.

(** An entry that is a number or is missing is no text. *)
Lemma numeric_text_dtype vals :
  Forall numeric vals <-> Pandas.text_dtype vals = false.
Proof.
  unfold Pandas.text_dtype. induction vals as [| c rest IH]; simpl.
  - split; [reflexivity | constructor].
  - rewrite Forall_cons_iff, IH. destruct c as [| t | q]; simpl.
    + split; [tauto | intros H; split; [intros t; discriminate | exact H]].
    + split; [intros [H _]; now destruct (H t) | discriminate].
    + split; [tauto | intros H; split; [intros t; discriminate | exact H]].
Qed.

(** The analysis when no row is kept and the KPI values of the table are
    numbers or missing. *)
Lemma kpi_analysis_no_match s r df kpi names vals :
  holds s r df ->
  missing_columns (Pandas.columns df) = [] ->
  Pandas.lookup "KPI Name" df = Some names ->
  Pandas.lookup "KPI Value" df = Some vals ->
  Forall numeric vals ->
  Forall (fun b => b = false) (Pandas.eq_scalar names kpi) ->
  exists trend extra,
    kpi_analysis r kpi s
    = (Ok tt,
       mkState (heap s ++ extra)
               (log s ++ [st_subheader_kpi kpi;
                          st_markdown "#### Trend Chart";
                          st_altair_chart mark_line trend;
                          st_markdown "#### Bar Chart";
                          st_altair_chart mark_bar
                            [("Load", []); ("KPI Value", [])];
                          st_markdown "#### Summary Statistics by Load";
                          st_dataframe
                            [("Load", []); ("Min (sec)", []); ("Max (sec)", []);
                             ("Mean (sec)", []); ("Median (sec)", [])]]))
    /\ no_rows trend
    /\ Pandas.lookup "Run" trend = Some [].
Proof.
  intros Hs Hm Hn Hv Hnum Hmask.
  destruct (required_lookup df "Load" Hm) as [loads0 Hl]; [simpl; tauto |].
  set (mask := Pandas.eq_scalar names kpi) in *.
  set (filtered := Pandas.getitem_mask df mask).
  assert (Hloads : Pandas.select mask loads0 = []) by now apply select_none.
  assert (Hvals : Pandas.select mask vals = []) by now apply select_none.
  set (frame := Pandas.setitem filtered "Run" []).
  assert (HL : Pandas.getitem frame "Load" = Ok []).
  { unfold Pandas.getitem, frame, filtered.
    rewrite lookup_setitem_ne by discriminate.
    now rewrite lookup_getitem_mask, Hl; simpl; rewrite Hloads. }
  assert (HV : Pandas.getitem frame "KPI Value" = Ok []).
  { unfold Pandas.getitem, frame, filtered.
    rewrite lookup_setitem_ne by discriminate.
    now rewrite lookup_getitem_mask, Hv; simpl; rewrite Hvals. }
  exists frame, [filtered; frame]. split; [| split].
  - pose proof (kpi_analysis_ok s r df kpi names loads0 vals
                  [("Load", []); ("KPI Value", [])]
                  [("Load", []); ("Min (sec)", []); ("Max (sec)", []);
                   ("Mean (sec)", []); ("Median (sec)", [])] Hs Hn Hl Hv
                  (proj1 (numeric_text_dtype vals) Hnum)) as Hrun.
    cbv zeta in Hrun. fold mask in Hrun. rewrite Hloads in Hrun.
    change (Pandas.add1 (Pandas.cumcount [])) with (@nil cell) in Hrun.
    fold filtered in Hrun. fold frame in Hrun. apply Hrun.
    + unfold mean_data. now rewrite HL, HV.
    + unfold summary. now rewrite HL, HV.
  - apply setitem_no_rows. now apply getitem_mask_none.
  - apply lookup_setitem_eq.
Qed.

(** C5.  For a table with the required columns, rows or not, whose KPI
    values are numbers or missing, and a KPI name that is not among its KPI
    names, the analysis of that KPI raises nothing and makes its seven calls;
    the trend data, the bar data and the table of statistics it passes have
    their columns and no rows.  On a column of text the analysis raises,
    rows or not. *)
Theorem absent_kpi_gives_empty_tables (s : state) (data_set : ref)
        (df : DataFrame) (kpi : cell) (names vals : Series) :
  holds s data_set df ->
  missing_columns (Pandas.columns df) = [] ->
  Pandas.lookup "KPI Name" df = Some names ->
  Pandas.lookup "KPI Value" df = Some vals ->
  Forall numeric vals ->
  ~ In kpi names ->
  exists trend extra,
    kpi_analysis data_set kpi s
    = (Ok tt,
       mkState (heap s ++ extra)
               (log s ++ [st_subheader_kpi kpi;
                          st_markdown "#### Trend Chart";
                          st_altair_chart mark_line trend;
                          st_markdown "#### Bar Chart";
                          st_altair_chart mark_bar
                            [("Load", []); ("KPI Value", [])];
                          st_markdown "#### Summary Statistics by Load";
                          st_dataframe
                            [("Load", []); ("Min (sec)", []); ("Max (sec)", []);
                             ("Mean (sec)", []); ("Median (sec)", [])]]))
    /\ no_rows trend
    /\ Pandas.lookup "Run" trend = Some [].
Proof.
  intros Hs Hm Hn Hv Hnum Habsent.
  apply (kpi_analysis_no_match s data_set df kpi names vals Hs Hm Hn Hv Hnum).
  now apply eq_scalar_absent.
Qed.

(** ** Distinct values in order of first appearance *)

Lemma unique_from_seen seen seen' s :
  (forall x, In x seen <-> In x seen') ->
  Pandas.unique_from seen s = Pandas.unique_from seen' s.
Proof.
  revert seen seen'. induction s as [| x rest IH]; intros seen seen' H; simpl.
  - reflexivity.
  - assert (E : in_list x seen = in_list x seen').
    { destruct (in_list x seen) eqn:E1; symmetry.
      - apply in_list_In. apply H. now apply in_list_In.
      - apply in_list_not_In. rewrite <- H. now apply in_list_not_In. }
    rewrite <- E. destruct (in_list x seen).
    + now apply IH.
    + f_equal. apply IH. intros y. simpl. now rewrite H.
Qed.

Lemma filter_twice {A} (f : A -> bool) l : filter f (filter f l) = filter f l.
Proof.
  induction l as [| x rest IH]; simpl; [reflexivity |].
  destruct (f x) eqn:E; simpl; [rewrite E; now f_equal | exact IH].
Qed.

Lemma unique_from_cons a seen s :
  Pandas.unique_from (a :: seen) s
  = filter (fun y => negb (cell_eqb y a)) (Pandas.unique_from seen s).
Proof.
  revert seen. induction s as [| y rest IH]; intros seen; simpl.
  - reflexivity.
  - destruct (cell_eqb y a) eqn:Eya; simpl.
    + apply cell_eqb_eq in Eya. subst y.
      destruct (in_list a seen) eqn:Es.
      * apply IH.
      * simpl. rewrite cell_eqb_refl. simpl.
        rewrite (IH seen). now rewrite filter_twice.
    + destruct (in_list y seen) eqn:Es.
      * apply IH.
      * simpl. rewrite Eya. simpl. f_equal.
        rewrite <- IH. apply unique_from_seen.
        intros x. simpl. tauto.
Qed.

(** [unique] keeps the first entry and drops its later occurrences. *)
Lemma unique_cons x s :
  Pandas.unique (x :: s)
  = x :: filter (fun y => negb (cell_eqb y x)) (Pandas.unique s).
Proof. unfold Pandas.unique. simpl. now rewrite unique_from_cons. Qed.

Lemma unique_In x s : In x (Pandas.unique s) <-> In x s.
Proof.
  induction s as [| y rest IH].
  - reflexivity.
  - rewrite unique_cons. simpl. rewrite filter_In, IH, negb_true_iff, cell_eqb_neq.
    destruct (cell_eq_dec y x); intuition congruence.
Qed.

Lemma unique_NoDup s : NoDup (Pandas.unique s).
Proof.
  induction s as [| y rest IH].
  - constructor.
  - rewrite unique_cons. constructor.
    + rewrite filter_In, negb_true_iff, cell_eqb_neq. intuition congruence.
    + now apply NoDup_filter.
Qed.

Lemma filter_keeps_order {A} (f : A -> bool) l i j a b :
  nth_error (filter f l) i = Some a ->
  nth_error (filter f l) j = Some b ->
  i < j ->
  exists i' j', nth_error l i' = Some a /\ nth_error l j' = Some b /\ i' < j'.
Proof.
  revert i j. induction l as [| x rest IH]; intros i j Hi Hj Hlt; simpl in *.
  - destruct i; discriminate.
  - destruct (f x).
    + destruct j as [| j]; [lia |]. destruct i as [| i]; simpl in *.
      * assert (Hb : In b (filter f rest)) by (eapply nth_error_In; eauto).
        apply filter_In in Hb. destruct Hb as [Hb _].
        apply In_nth_error in Hb. destruct Hb as [k Hk].
        exists 0, (S k). simpl. repeat split; [assumption | assumption | lia].
      * destruct (IH i j Hi Hj) as [i' [j' [H1 [H2 H3]]]]; [lia |].
        exists (S i'), (S j'). simpl. repeat split; [assumption | assumption | lia].
    + destruct (IH i j Hi Hj Hlt) as [i' [j' [H1 [H2 H3]]]].
      exists (S i'), (S j'). simpl. repeat split; [assumption | assumption | lia].
Qed.

Lemma first_index_In x s : In x s -> exists p, first_index x s = Some p.
Proof.
  induction s as [| y rest IH]; simpl; [tauto |].
  intros H. destruct (cell_eqb x y) eqn:E; [eauto |].
  apply cell_eqb_neq in E. destruct H as [H | H]; [congruence |].
  destruct (IH H) as [p Hp]. rewrite Hp. simpl. eauto.
Qed.

Lemma unique_first_seen s : first_seen_order s (Pandas.unique s).
Proof.
  split; [apply unique_NoDup |]. split; [intros x; apply unique_In |].
  induction s as [| x rest IH]; intros i j a b Hi Hj Hlt.
  - destruct i; discriminate.
  - rewrite unique_cons in Hi, Hj.
    destruct j as [| j]; [lia |]. simpl in Hj.
    assert (Hb : In b (filter (fun y => negb (cell_eqb y x)) (Pandas.unique rest)))
      by (eapply nth_error_In; eauto).
    apply filter_In in Hb. destruct Hb as [Hb Hbx].
    apply negb_true_iff in Hbx. rewrite unique_In in Hb.
    destruct (first_index_In b rest Hb) as [q Hq].
    destruct i as [| i]; simpl in Hi.
    + inversion Hi; subst a. exists 0, (S q). simpl.
      rewrite cell_eqb_refl, Hbx, Hq. repeat split. lia.
    + assert (Ha : In a (filter (fun y => negb (cell_eqb y x)) (Pandas.unique rest)))
        by (eapply nth_error_In; eauto).
      apply filter_In in Ha. destruct Ha as [_ Hax]. apply negb_true_iff in Hax.
      destruct (filter_keeps_order _ _ i j a b Hi Hj) as [i' [j' [H1 [H2 H3]]]]; [lia |].
      destruct (IH i' j' a b H1 H2 H3) as [p [q' [Hp [Hq' Hpq]]]].
      exists (S p), (S q'). simpl. rewrite Hax, Hbx, Hp, Hq'.
      repeat split. lia.
Qed.

(** ** The metadata of a valid table *)

Lemma valid_constant df col :
  valid df -> In col CONSTANT_COLUMNS ->
  exists c rest, Pandas.lookup col df = Some (c :: rest).
Proof.
  intros [_ Hc] Hin. unfold consistent in Hc. rewrite forallb_forall in Hc.
  specialize (Hc col Hin). unfold single_valued in Hc.
  destruct (Pandas.lookup col df) as [[| c rest] |]; [discriminate | eauto | discriminate].
Qed.

Lemma first_of_run s r df col c rest :
  holds s r df -> Pandas.lookup col df = Some (c :: rest) ->
  first_of r col s = (Ok c, s).
Proof.
  intros Hs Hl. unfold first_of, bind at 1.
  now rewrite (getitem_run s r df col _ Hs Hl).
Qed.

Lemma extract_ok r df features names :
  valid df ->
  Pandas.lookup "feature" df = Some features ->
  Pandas.lookup "KPI Name" df = Some names ->
  exists m,
    unique_features m = Pandas.unique features
    /\ unique_kpis m = Pandas.unique names
    /\ forall s, holds s r df -> extract r s = (Ok m, s).
Proof.
  intros Hv Hf Hn.
  destruct (valid_constant df "OS" Hv) as [c1 [r1 H1]]; [simpl; tauto |].
  destruct (valid_constant df "Build Number" Hv) as [c2 [r2 H2]]; [simpl; tauto |].
  destruct (valid_constant df "Target Device" Hv) as [c3 [r3 H3]]; [simpl; tauto |].
  destruct (valid_constant df "OS Version" Hv) as [c4 [r4 H4]]; [simpl; tauto |].
  exists (mkMetadata c1 c2 c3 c4 (Pandas.unique features) (Pandas.unique names)).
  split; [reflexivity |]. split; [reflexivity |].
  intros s Hs. unfold extract, bind.
  rewrite (first_of_run s r df _ _ _ Hs H1).
  rewrite (first_of_run s r df _ _ _ Hs H2).
  rewrite (first_of_run s r df _ _ _ Hs H3).
  rewrite (first_of_run s r df _ _ _ Hs H4).
  rewrite (getitem_run s r df _ _ Hs Hf).
  rewrite (getitem_run s r df _ _ Hs Hn).
  reflexivity.
Qed.

(** The rendering for a valid table, up to the KPI filter. *)
Lemma render_valid r df choice names :
  valid df ->
  Pandas.lookup "KPI Name" df = Some names ->
  exists res extra out,
    forall s, holds s r df ->
      render r choice s
      = (res,
         mkState (heap s ++ extra)
                 (log s
                  ++ st_markdown "<h1 style='text-align: center; font-weight: bold;'>Performance Data Analysis</h1>"
                  :: st_sidebar_header "KPI Filter"
                  :: st_sidebar_multiselect "Select KPIs for analysis"
                       (Pandas.unique names) (default_kpis (Pandas.unique names))
                  :: out)).
Proof.
  intros Hv Hn.
  destruct (required_lookup df "feature" (proj1 Hv)) as [features Hf]; [simpl; tauto |].
  destruct (extract_ok r df features names Hv Hf Hn) as [m [_ [Hk Hex]]].
  set (selected := match choice with
                   | Some sel => sel
                   | None => default_kpis (unique_kpis m)
                   end).
  assert (Htail : uniform r df (preview m ;; kpi_mapping r ;;
                                for_each selected (kpi_analysis r))).
  { apply uniform_bind; [apply uniform_preview | intros _].
    apply uniform_bind; [apply uniform_kpi_mapping | intros _].
    apply uniform_for_each. intros kpi. apply uniform_kpi_analysis. }
  destruct Htail as [res [extra [out Htail]]].
  destruct (in_list NaN (default_kpis (unique_kpis m))) eqn:Enan.
  - exists (Raise StreamlitDefaultNotInOptionsError), [], []. intros s Hs.
    unfold render, bind at 1. unfold st at 1. unfold bind at 1.
    rewrite Hex by exact Hs.
    unfold bind at 1. unfold st at 1. unfold bind at 1.
    unfold multiselect, bind at 1. unfold st at 1. rewrite Enan.
    unfold raise. rewrite Hk. simpl.
    now rewrite app_nil_r, <- !app_assoc.
  - exists res, extra, out. intros s Hs.
    unfold render, bind at 1. unfold st at 1. unfold bind at 1.
    rewrite Hex by exact Hs.
    unfold bind at 1. unfold st at 1. unfold bind at 1.
    unfold multiselect, bind at 1. unfold st at 1. rewrite Enan.
    unfold ret at 1.
    fold selected. rewrite Hk.
    rewrite Htail by exact Hs. simpl.
    now rewrite <- !app_assoc.
Qed.

(** C6.  For a valid table the KPI filter is offered the distinct KPI names
    of the table, each once and in the order in which they first appear in
    its rows, and its default selection is the first three of them in that
    order. *)
Theorem default_selection_first_three (contents : DataFrame)
        (choice : option Series) :
  valid contents ->
  exists names distinct res extra before after,
    Pandas.lookup "KPI Name" contents = Some names
    /\ first_seen_order names distinct
    /\ run (Some contents) choice
       = (res,
          mkState ([contents] ++ extra)
                  (page_setup_calls ++ before
                   ++ st_sidebar_multiselect "Select KPIs for analysis"
                        distinct (firstn 3 distinct)
                   :: after)).
Proof.
  intros Hv.
  destruct (required_lookup contents "KPI Name" (proj1 Hv)) as [names Hn];
    [simpl; tauto |].
  destruct (render_valid 0 contents choice names Hv Hn) as [res [extra [out Hr]]].
  exists names, (Pandas.unique names), res, extra,
    [st_markdown "<h1 style='text-align: center; font-weight: bold;'>Performance Data Analysis</h1>";
     st_sidebar_header "KPI Filter"], out.
  split; [exact Hn |]. split; [apply unique_first_seen |].
  rewrite (run_checked contents choice (proj1 Hv)), (proj2 Hv).
  rewrite (Hr (mkState [contents] page_setup_calls) eq_refl).
  reflexivity.
Qed.

(** C10.  For a valid table with fewer than three distinct KPI names, the
    default selection of the KPI filter is all of them, in the order in which
    they first appear: the slice [[:3]] of a shorter sequence is the whole
    sequence, and taking it raises nothing. *)
Theorem default_selection_short (contents : DataFrame) (choice : option Series)
        (names : Series) :
  valid contents ->
  Pandas.lookup "KPI Name" contents = Some names ->
  length (Pandas.unique names) < 3 ->
  default_kpis (Pandas.unique names) = Pandas.unique names
  /\ first_seen_order names (Pandas.unique names)
  /\ exists res extra before after,
       run (Some contents) choice
       = (res,
          mkState ([contents] ++ extra)
                  (page_setup_calls ++ before
                   ++ st_sidebar_multiselect "Select KPIs for analysis"
                        (Pandas.unique names) (Pandas.unique names)
                   :: after)).
Proof.
  intros Hv Hn Hlen.
  assert (Hd : default_kpis (Pandas.unique names) = Pandas.unique names).
  { unfold default_kpis. apply firstn_all2. lia. }
  split; [exact Hd |]. split; [apply unique_first_seen |].
  destruct (render_valid 0 contents choice names Hv Hn) as [res [extra [out Hr]]].
  exists res, extra,
    [st_markdown "<h1 style='text-align: center; font-weight: bold;'>Performance Data Analysis</h1>";
     st_sidebar_header "KPI Filter"], out.
  rewrite (run_checked contents choice (proj1 Hv)), (proj2 Hv).
  rewrite (Hr (mkState [contents] page_setup_calls) eq_refl).
  rewrite Hd. reflexivity.
Qed.

(** ** Running the analysis again *)

(** The analysis of one KPI on a table that has the columns: whatever it
    gives, it gives in every state, and the two objects it adds to the store
    are the filtered rows and their copy with the run index. *)
Lemma kpi_analysis_store r df kpi names loads0 :
  Pandas.lookup "KPI Name" df = Some names ->
  Pandas.lookup "Load" df = Some loads0 ->
  let mask := Pandas.eq_scalar names kpi in
  let filtered := Pandas.getitem_mask df mask in
  let frame := Pandas.setitem filtered "Run"
                 (Pandas.add1 (Pandas.cumcount (Pandas.select mask loads0))) in
  exists res out,
    forall s, holds s r df ->
      kpi_analysis r kpi s
      = (res, mkState (heap s ++ [filtered; frame]) (log s ++ out)).
Proof.
  intros Hn Hl mask filtered frame.
  assert (Hrun : forall s, holds s r df ->
            make_kpi_data r kpi s
            = (Ok (S (length (heap s))),
               mkState (heap s ++ [filtered; frame]) (log s))).
  { intros s Hs. now apply make_kpi_data_ok. }
  pose proof (kpi_analysis_run r df kpi filtered frame Hrun) as H.
  cbv zeta in H.
  destruct (Pandas.getitem df "KPI Value") as [vals | e];
    [| eexists _, _; exact H].
  destruct (Pandas.text_dtype vals); [eexists _, _; exact H |].
  destruct (mean_data frame) as [bars | e]; [| eexists _, _; exact H].
  destruct (summary frame) as [table | e]; eexists _, _; exact H.
Qed.

(** C9.  On a valid table held by an object of the store, extracting the
    metadata and analysing a KPI, done twice in a row, gives the same
    metadata, the same outcome and the same calls both times.  Each time the
    store only grows, by the filtered rows and by their copy; the run index
    is a column of the copy, and the object of the table holds the same
    table before, between and after. *)
Theorem extract_and_aggregate_repeatable (s : state) (data_set : ref)
        (df : DataFrame) (kpi : cell) :
  holds s data_set df ->
  valid df ->
  let pass := (m <- extract data_set ;; kpi_analysis data_set kpi ;; ret m) in
  exists res out filtered frame runs s1 s2,
    pass s = (res, s1)
    /\ pass s1 = (res, s2)
    /\ log s1 = log s ++ out
    /\ log s2 = log s1 ++ out
    /\ heap s1 = heap s ++ [filtered; frame]
    /\ heap s2 = heap s1 ++ [filtered; frame]
    /\ Pandas.lookup "Run" frame = Some runs
    /\ holds s1 data_set df
    /\ holds s2 data_set df.
Proof.
  intros Hs Hv pass.
  destruct (required_lookup df "KPI Name" (proj1 Hv)) as [names Hn]; [simpl; tauto |].
  destruct (required_lookup df "Load" (proj1 Hv)) as [loads0 Hl]; [simpl; tauto |].
  destruct (required_lookup df "feature" (proj1 Hv)) as [features Hf]; [simpl; tauto |].
  destruct (extract_ok data_set df features names Hv Hf Hn) as [m [_ [_ Hex]]].
  destruct (kpi_analysis_store data_set df kpi names loads0 Hn Hl) as [res [out Hk]].
  cbv zeta in Hk.
  set (mask := Pandas.eq_scalar names kpi) in *.
  set (filtered := Pandas.getitem_mask df mask) in *.
  set (runs := Pandas.add1 (Pandas.cumcount (Pandas.select mask loads0))) in *.
  set (frame := Pandas.setitem filtered "Run" runs) in *.
  assert (Hpass : forall t, holds t data_set df ->
            pass t = (match res with Ok _ => Ok m | Raise e => Raise e end,
                      mkState (heap t ++ [filtered; frame]) (log t ++ out))).
  { intros t Ht. unfold pass, bind. rewrite (Hex t Ht), (Hk t Ht).
    destruct res; reflexivity. }
  pose proof (holds_app s data_set df [filtered; frame] out Hs) as Hs1.
  pose proof (holds_app _ data_set df [filtered; frame] out Hs1) as Hs2.
  eexists _, out, filtered, frame, runs, _, _.
  split; [apply (Hpass s Hs) |].
  split; [apply (Hpass _ Hs1) |].
  simpl. repeat split; try assumption.
  apply lookup_setitem_eq.
Qed.

(** ** Sorting text *)

Lemma ascii_compare_refl a : Ascii.compare a a = Eq.
Proof. unfold Ascii.compare. apply N.compare_refl. Qed.

Lemma ascii_compare_lt_trans a b c :
  Ascii.compare a b = Lt -> Ascii.compare b c = Lt -> Ascii.compare a c = Lt.
Proof.
  unfold Ascii.compare. rewrite !N.compare_lt_iff. apply N.lt_trans.
Qed.

Lemma string_compare_refl a : String.compare a a = Eq.
Proof.
  induction a as [| x a IH]; simpl; [reflexivity |].
  now rewrite ascii_compare_refl.
Qed.

Lemma string_compare_lt_trans a b c :
  String.compare a b = Lt -> String.compare b c = Lt -> String.compare a c = Lt.
Proof.
  revert b c. induction a as [| x a IH]; intros [| y b] [| z c]; simpl;
    try discriminate; try reflexivity.
  destruct (Ascii.compare x y) eqn:Exy; try discriminate;
    destruct (Ascii.compare y z) eqn:Eyz; try discriminate; intros Hab Hbc.
  - apply Ascii.compare_eq_iff in Exy, Eyz. subst.
    rewrite ascii_compare_refl. eauto.
  - apply Ascii.compare_eq_iff in Exy. subst. now rewrite Eyz.
  - apply Ascii.compare_eq_iff in Eyz. subst. now rewrite Exy.
  - now rewrite (ascii_compare_lt_trans x y z Exy Eyz).
Qed.

Lemma string_leb_trans a b c :
  String.leb a b = true -> String.leb b c = true -> String.leb a c = true.
Proof.
  unfold String.leb.
  destruct (String.compare a b) eqn:Eab; try discriminate;
    destruct (String.compare b c) eqn:Ebc; try discriminate; intros _ _.
  - apply String.compare_eq_iff in Eab, Ebc. subst. now rewrite string_compare_refl.
  - apply String.compare_eq_iff in Eab. subst. now rewrite Ebc.
  - apply String.compare_eq_iff in Ebc. subst. now rewrite Eab.
  - now rewrite (string_compare_lt_trans a b c Eab Ebc).
Qed.

Lemma lexicographic_trans a b c :
  lexicographic a b -> lexicographic b c -> lexicographic a c.
Proof.
  destruct a, b, c; simpl; try tauto. apply string_leb_trans.
Qed.

Lemma string_ltb_leb a b : String.ltb a b = true -> String.leb a b = true.
Proof.
  unfold String.ltb, String.leb. destruct (String.compare a b); congruence.
Qed.

Lemma string_not_ltb_leb a b : String.ltb a b = false -> String.leb b a = true.
Proof.
  unfold String.ltb, String.leb. rewrite (String.compare_antisym b a).
  destruct (String.compare a b); simpl; congruence.
Qed.

(** Inserting a text entry into a sorted list of text entries. *)
Lemma py_insert_text x l :
  text x -> Forall text l ->
  exists l',
    py_insert x l = Ok l'
    /\ Permutation (x :: l) l'
    /\ Forall text l'
    /\ (forall a, lexicographic a x -> HdRel lexicographic a l ->
                  HdRel lexicographic a l')
    /\ (Sorted lexicographic l -> Sorted lexicographic l').
Proof.
  intros [u Hx] Hl. subst x. induction Hl as [| y r [t Hy] Hr IH].
  - exists [Str u]. simpl. repeat split.
    + apply Permutation_refl.
    + repeat constructor. now exists u.
    + intros a Ha _. now constructor.
    + intros _. repeat constructor.
  - subst y. destruct IH as [r' [Hins [Hperm [Htext [Hhd Hsorted]]]]].
    simpl. destruct (String.ltb t u) eqn:E.
    + rewrite Hins. exists (Str t :: r'). repeat split.
      * eapply perm_trans; [apply perm_swap | now apply perm_skip].
      * constructor; [now exists t | assumption].
      * intros a _ Ha. constructor. now inversion Ha.
      * intros Hs. inversion Hs as [| ? ? Hsr Hh]; subst.
        constructor; [now apply Hsorted |].
        apply Hhd; [| assumption]. simpl. now apply string_ltb_leb.
    + exists (Str u :: Str t :: r). repeat split.
      * apply Permutation_refl.
      * constructor; [now exists u |]. constructor; [now exists t | assumption].
      * intros a Ha _. now constructor.
      * intros Hs. constructor; [assumption |]. constructor.
        simpl. now apply string_not_ltb_leb.
Qed.

(** [sorted] on text entries returns them in lexicographic order. *)
Lemma sorted_text l :
  Forall text l ->
  exists l',
    sorted l = Ok l'
    /\ Permutation l l'
    /\ Forall text l'
    /\ StronglySorted lexicographic l'.
Proof.
  intros Hl.
  assert (H : exists l', sorted l = Ok l' /\ Permutation l l' /\ Forall text l'
                         /\ Sorted lexicographic l').
  { induction Hl as [| x r Hx Hr IH].
    - exists []. simpl. repeat split; constructor.
    - destruct IH as [r' [Hs [Hp [Ht Hsorted]]]].
      destruct (py_insert_text x r' Hx Ht) as [l' [Hi [Hp' [Ht' [_ Hs']]]]].
      exists l'. simpl. rewrite Hs. repeat split; try assumption.
      + eapply perm_trans; [apply perm_skip, Hp | exact Hp'].
      + now apply Hs'. }
  destruct H as [l' [Hs [Hp [Ht Hsorted]]]].
  exists l'. repeat split; try assumption.
  apply Sorted_StronglySorted; [| assumption].
  intros a b c. apply lexicographic_trans.
Qed.

(** ** Groups *)

Lemma group_nil_r keys l : Pandas.group keys [] l = [].
Proof. unfold Pandas.group. destruct keys; reflexivity. Qed.

Lemma group_In keys vals k v :
  In v (Pandas.group keys vals k)
  <-> exists i, nth_error keys i = Some k /\ nth_error vals i = Some v.
Proof.
  revert vals. induction keys as [| x keys IH]; intros vals.
  - simpl. split; [tauto | intros [[| i] [H _]]; discriminate].
  - destruct vals as [| y vals].
    + rewrite group_nil_r. split; [simpl; tauto | intros [[| i] [_ H]]; discriminate].
    + rewrite group_cons. split.
      * destruct (cell_eqb x k) eqn:E.
        -- apply cell_eqb_eq in E. subst x. intros [H | H].
           ++ subst y. now exists 0.
           ++ apply IH in H. destruct H as [i Hi]. now exists (S i).
        -- intros H. apply IH in H. destruct H as [i Hi]. now exists (S i).
      * intros [[| i] [Hk Hv]]; simpl in Hk, Hv.
        -- inversion Hk; inversion Hv; subst. rewrite cell_eqb_refl. now left.
        -- assert (H : In v (Pandas.group keys vals k)) by (apply IH; eauto).
           destruct (cell_eqb x k); [now right | exact H].
Qed.

Lemma group_incl keys vals k v : In v (Pandas.group keys vals k) -> In v vals.
Proof.
  intros H. apply group_In in H. destruct H as [i [_ Hi]].
  eapply nth_error_In; eauto.
Qed.

Lemma dropna_In x s : In x (Pandas.dropna s) <-> In x s /\ x <> NaN.
Proof.
  unfold Pandas.dropna. rewrite filter_In.
  destruct x; simpl; intuition congruence.
Qed.

Lemma group_keys_In k keys :
  In k (Pandas.group_keys keys) <-> In k keys /\ k <> NaN.
Proof.
  unfold Pandas.group_keys. now rewrite isort_In, unique_In, dropna_In.
Qed.

Lemma group_keys_NoDup keys : NoDup (Pandas.group_keys keys).
Proof. unfold Pandas.group_keys. apply isort_NoDup, unique_NoDup. Qed.

(** ** The KPI names of each feature *)

Lemma for_each_st {A} (g : A -> call) l s :
  for_each l (fun x => st (g x)) s
  = (Ok tt, mkState (heap s) (log s ++ map g l)).
Proof.
  revert s. induction l as [| x rest IH]; intros s; simpl.
  - unfold ret. rewrite app_nil_r. now destruct s.
  - unfold bind, st at 1. rewrite IH. simpl. now rewrite <- app_assoc.
Qed.

Lemma bind_st {A} c (f : unit -> M A) s :
  bind (st c) f s = f tt (mkState (heap s) (log s ++ [c])).
Proof. reflexivity. Qed.

Lemma bind_lift_Ok {A B} (a : A) (f : A -> M B) s :
  bind (lift (Ok a)) f s = f a s.
Proof. reflexivity. Qed.

Lemma for_each_mapping grouped s :
  (forall feature kpis, In (feature, kpis) grouped ->
                        exists l, sorted kpis = Ok l) ->
  for_each grouped (fun '(feature, kpis) =>
    st (st_expander feature) ;;
    listing <- lift (sorted kpis) ;;
    for_each listing (fun kpi => st (st_write_bullet kpi))) s
  = (Ok tt,
     mkState (heap s)
             (log s ++ mapping_calls
                         (map (fun '(feature, kpis) => (feature, sorted_value kpis))
                              grouped))).
Proof.
  revert s. induction grouped as [| [feature kpis] rest IH]; intros s H; simpl.
  - unfold ret. rewrite app_nil_r. now destruct s.
  - destruct (H feature kpis (or_introl eq_refl)) as [l Hl].
    unfold sorted_value at 1. rewrite Hl.
    unfold bind at 1. rewrite bind_st, bind_lift_Ok, for_each_st.
    rewrite IH by (intros f ks Hin; apply (H f ks); now right).
    simpl. now rewrite <- !app_assoc.
Qed.

(** C7.  For a table whose KPI names are all text, lines 93 to 99 list, for
    each distinct feature of the table that is not missing and for no other,
    the KPI names of the rows with that feature: each such name once, no
    other name, and the names of a feature in lexicographic order.  The rows
    whose feature is missing are in no group of [groupby]: the missing
    feature is not listed, and a KPI name that only such rows have is listed
    nowhere. *)
Theorem kpi_mapping_listing (s : state) (data_set : ref) (df : DataFrame)
        (features names : Series) :
  holds s data_set df ->
  Pandas.lookup "feature" df = Some features ->
  Pandas.lookup "KPI Name" df = Some names ->
  Forall text names ->
  exists listing : list (cell * list cell),
    kpi_mapping data_set s
    = (Ok tt,
       mkState (heap s)
               (log s ++ st_subheader "KPI Mapping by Feature"
                      :: mapping_calls listing))
    /\ NoDup (map fst listing)
    /\ (forall feature, In feature (map fst listing)
                        <-> In feature features /\ feature <> NaN)
    /\ forall feature kpis, In (feature, kpis) listing ->
         NoDup kpis
         /\ (forall kpi, In kpi kpis
                         <-> exists i, nth_error features i = Some feature
                                       /\ nth_error names i = Some kpi)
         /\ StronglySorted lexicographic kpis.
Proof.
  intros Hs Hf Hn Htext.
  set (grouped := Pandas.groupby_unique features names).
  assert (Hgroup : forall feature kpis, In (feature, kpis) grouped ->
            kpis = Pandas.unique (Pandas.group features names feature)
            /\ Forall text kpis).
  { intros f ks Hin. unfold grouped, Pandas.groupby_unique in Hin.
    apply in_map_iff in Hin. destruct Hin as [k [Hk _]].
    inversion Hk; subst. split; [reflexivity |].
    apply Forall_forall. intros x Hx. rewrite unique_In in Hx.
    apply group_incl in Hx. rewrite Forall_forall in Htext. now apply Htext. }
  exists (map (fun '(feature, kpis) => (feature, sorted_value kpis)) grouped).
  split; [| split; [| split]].
  - unfold kpi_mapping, bind at 1. unfold st at 1. unfold bind at 1.
    rewrite (getitem_run _ data_set df "feature" features) by assumption.
    unfold bind at 1.
    rewrite (getitem_run _ data_set df "KPI Name" names) by assumption.
    fold grouped. rewrite for_each_mapping.
    + simpl. now rewrite <- app_assoc.
    + intros f ks Hin. destruct (Hgroup f ks Hin) as [_ Ht].
      destruct (sorted_text ks Ht) as [l [Hl _]]. eauto.
  - rewrite map_map.
    replace (map (fun x => fst (let '(feature, kpis) := x in
                                (feature, sorted_value kpis))) grouped)
      with (Pandas.group_keys features).
    + apply group_keys_NoDup.
    + unfold grouped, Pandas.groupby_unique. rewrite map_map. simpl.
      now rewrite map_id.
  - intros f. rewrite map_map.
    replace (map (fun x => fst (let '(feature, kpis) := x in
                                (feature, sorted_value kpis))) grouped)
      with (Pandas.group_keys features).
    + apply group_keys_In.
    + unfold grouped, Pandas.groupby_unique. rewrite map_map. simpl.
      now rewrite map_id.
  - intros f ks Hin. apply in_map_iff in Hin.
    destruct Hin as [[f' ks'] [Heq Hin]]. inversion Heq; subst f ks.
    destruct (Hgroup f' ks' Hin) as [Hks Ht].
    destruct (sorted_text ks' Ht) as [l [Hl [Hp [_ Hsorted]]]].
    unfold sorted_value. rewrite Hl. split; [| split].
    + eapply Permutation_NoDup; [exact Hp |]. subst ks'. apply unique_NoDup.
    + intros k. rewrite <- group_In.
      rewrite <- (unique_In k (Pandas.group features names f')), <- Hks.
      split; intros H.
      * eapply Permutation_in; [apply Permutation_sym, Hp | exact H].
      * eapply Permutation_in; [exact Hp | exact H].
    + exact Hsorted.
Qed.

(** ** Statistics of a group *)

Lemma Qc_leb_le x y : Pandas.Qc_leb x y = true <-> (x <= y)%Qc.
Proof. unfold Pandas.Qc_leb, Qcle. apply Qle_bool_iff. Qed.

Lemma Qc_leb_total x y : Pandas.Qc_leb x y = true \/ Pandas.Qc_leb y x = true.
Proof.
  rewrite !Qc_leb_le. destruct (Qclt_le_dec x y) as [H | H].
  - left. now apply Qclt_le_weak.
  - now right.
Qed.

Lemma Qc_leb_false x y : Pandas.Qc_leb x y = false -> (y <= x)%Qc.
Proof.
  intros H. destruct (Qc_leb_total x y) as [H' | H']; [congruence |].
  now apply Qc_leb_le.
Qed.

Lemma fold_min_spec r x :
  In (fold_left Pandas.Qc_min r x) (x :: r)
  /\ Forall (fun y => (fold_left Pandas.Qc_min r x <= y)%Qc) (x :: r).
Proof.
  revert x. induction r as [| y r IH]; intros x; simpl.
  - split; [now left |]. constructor; [apply Qcle_refl | constructor].
  - destruct (IH (Pandas.Qc_min x y)) as [Hin Hall].
    inversion Hall as [| ? ? Hm Hr]; subst.
    unfold Pandas.Qc_min in *. destruct (Pandas.Qc_leb x y) eqn:E.
    + split; [destruct Hin as [Hin | Hin]; auto |].
      constructor; [assumption |]. constructor; [| assumption].
      eapply Qcle_trans; [exact Hm | now apply Qc_leb_le].
    + split; [destruct Hin as [Hin | Hin]; auto |].
      constructor; [| constructor; assumption].
      eapply Qcle_trans; [exact Hm | now apply Qc_leb_false].
Qed.

Lemma fold_max_spec r x :
  In (fold_left Pandas.Qc_max r x) (x :: r)
  /\ Forall (fun y => (y <= fold_left Pandas.Qc_max r x)%Qc) (x :: r).
Proof.
  revert x. induction r as [| y r IH]; intros x; simpl.
  - split; [now left |]. constructor; [apply Qcle_refl | constructor].
  - destruct (IH (Pandas.Qc_max x y)) as [Hin Hall].
    inversion Hall as [| ? ? Hm Hr]; subst.
    unfold Pandas.Qc_max in *. destruct (Pandas.Qc_leb x y) eqn:E.
    + split; [destruct Hin as [Hin | Hin]; auto |].
      constructor; [| constructor; assumption].
      eapply Qcle_trans; [| exact Hm]. now apply Qc_leb_le.
    + split; [destruct Hin as [Hin | Hin]; auto |].
      constructor; [assumption |]. constructor; [| assumption].
      eapply Qcle_trans; [| exact Hm]. now apply Qc_leb_false.
Qed.

Lemma stat_min_spec g : statistic is_min g (Pandas.stat_min g).
Proof.
  destruct g as [| x r]; [reflexivity |].
  unfold statistic, Pandas.stat_min. eexists. split; [reflexivity |].
  apply fold_min_spec.
Qed.

Lemma stat_max_spec g : statistic is_max g (Pandas.stat_max g).
Proof.
  destruct g as [| x r]; [reflexivity |].
  unfold statistic, Pandas.stat_max. eexists. split; [reflexivity |].
  apply fold_max_spec.
Qed.

(** ** The bar data and the table of statistics *)









(** * The properties on sample uploads *)

Example latency_upload_valid : valid latency_upload.
Proof. split; reflexivity. Qed.

Example latency_upload_run_indices :
  exists frame,
    fst (make_kpi_data 0 (Str "Latency") (mkState [latency_upload] []))
    = Ok 2
    /\ nth_error (heap (snd (make_kpi_data 0 (Str "Latency")
                               (mkState [latency_upload] [])))) 2
       = Some frame
    /\ option_map (map as_Q) (Pandas.lookup "Run" frame)
       = Some [Some 1%Q; Some 1%Q; Some 2%Q; Some 2%Q; Some 3%Q; Some 3%Q]
    /\ Pandas.lookup "Load" frame
       = Some [Str "Low"; Str "High"; Str "Low"; Str "High"; Str "Low"; Str "High"].
Proof. eexists. repeat split. Qed.

(** The table of statistics of the scenario; on these values the mean and
    the median are the same in [float64]. *)
Example latency_upload_statistics :
  exists frame,
    nth_error (heap (snd (make_kpi_data 0 (Str "Latency")
                            (mkState [latency_upload] [])))) 2
    = Some frame
    /\ option_map (map (fun c => (fst c, map as_Q (snd c))))
                  (match summary frame with Ok t => Some t | Raise _ => None end)
       = Some [("Load", [None; None]);
               ("Min (sec)", [Some 4%Q; Some 1%Q]);
               ("Max (sec)", [Some 6%Q; Some 3%Q]);
               ("Mean (sec)", [Some 5%Q; Some 2%Q]);
               ("Median (sec)", [Some 5%Q; Some 2%Q])]
    /\ option_map (fun t => Pandas.lookup "Load" t)
                  (match summary frame with Ok t => Some t | Raise _ => None end)
       = Some (Some [Str "High"; Str "Low"]).
Proof. eexists. split; [reflexivity |]. split; vm_compute; reflexivity. Qed.

(** The upload with the headers and no rows, analysed for a KPI: three
    tables without rows, and nothing raised. *)
Example empty_upload_analysis :
  kpi_analysis 0 (Str "Latency") (mkState [upload []] [])
  = (Ok tt,
     mkState [upload []; upload []; upload [] ++ [("Run", [])]]
             [st_subheader_kpi (Str "Latency");
              st_markdown "#### Trend Chart";
              st_altair_chart mark_line (upload [] ++ [("Run", [])]);
              st_markdown "#### Bar Chart";
              st_altair_chart mark_bar [("Load", []); ("KPI Value", [])];
              st_markdown "#### Summary Statistics by Load";
              st_dataframe
                [("Load", []); ("Min (sec)", []); ("Max (sec)", []);
                 ("Mean (sec)", []); ("Median (sec)", [])]]).
Proof. reflexivity. Qed.

Example four_kpis_default :
  default_kpis (Pandas.unique [Str "D"; Str "B"; Str "D"; Str "A"; Str "C"; Str "B"])
  = [Str "D"; Str "B"; Str "A"].
Proof. reflexivity. Qed.

(** The upload without its first two columns: both are reported. *)
Lemma missing_columns_reported_witness :
  run (Some (tl (tl latency_upload))) None
  = (Raise StopException,
     mkState [tl (tl latency_upload)]
             (page_setup_calls
              ++ missing_columns_report ["OS"; "Build Number"])).
Proof.
  destruct (missing_columns_reported (tl (tl latency_upload)) None) as [_ [_ H]].
  - exists "OS". split; [simpl; tauto | simpl; intuition discriminate].
  - exact H.
Defined.

(** The upload with the headers and no rows. *)
Lemma inconsistent_constants_iff_witness :
  run (Some (upload [])) None
  = (Ok tt, mkState [upload []] (page_setup_calls ++ inconsistent_report)).
Proof.
  apply (proj2 (inconsistent_constants_iff (upload []) None eq_refl)).
  repeat constructor.
Defined.

Lemma validation_failure_is_terminal_witness :
  exists res message hint,
    run (Some (upload [])) None
    = (res, mkState [upload []]
                    (page_setup_calls ++ [st_error message; st_warning hint])).
Proof.
  apply (validation_failure_is_terminal (upload []) None).
  right. reflexivity.
Defined.

Lemma run_indices_contiguous_witness :
  exists kpi_data s' names loads0 loads runs,
    make_kpi_data 0 (Str "Latency") (mkState [latency_upload] [])
    = (Ok kpi_data, s')
    /\ Pandas.lookup "KPI Name" latency_upload = Some names
    /\ Pandas.lookup "Load" latency_upload = Some loads0
    /\ loads = Pandas.select (Pandas.eq_scalar names (Str "Latency")) loads0
    /\ Pandas.getitem (nth kpi_data (heap s') []) "Load" = Ok loads
    /\ Pandas.getitem (nth kpi_data (heap s') []) "Run" = Ok runs
    /\ length runs = length loads
    /\ forall l, l <> NaN ->
         Pandas.group loads runs l
         = map Int (seq 1 (count_occ cell_eq_dec loads l))
         /\ NoDup (Pandas.group loads runs l).
Proof.
  apply (run_indices_contiguous (mkState [latency_upload] []) 0 latency_upload
           (Str "Latency")); reflexivity.
Defined.


Lemma absent_kpi_gives_empty_tables_witness :
  exists trend extra,
    kpi_analysis 0 (Str "Throughput") (mkState [latency_upload] [])
    = (Ok tt,
       mkState ([latency_upload] ++ extra)
               ([] ++ [st_subheader_kpi (Str "Throughput");
                       st_markdown "#### Trend Chart";
                       st_altair_chart mark_line trend;
                       st_markdown "#### Bar Chart";
                       st_altair_chart mark_bar
                         [("Load", []); ("KPI Value", [])];
                       st_markdown "#### Summary Statistics by Load";
                       st_dataframe
                         [("Load", []); ("Min (sec)", []); ("Max (sec)", []);
                          ("Mean (sec)", []); ("Median (sec)", [])]]))
    /\ no_rows trend
    /\ Pandas.lookup "Run" trend = Some [].
Proof.
  apply (absent_kpi_gives_empty_tables (mkState [latency_upload] []) 0
           latency_upload (Str "Throughput")
           (map (fun _ => Str "Latency") (seq 0 6))
           (map (fun z => Num (Q2Qc (inject_Z z))) [1; 4; 2; 5; 3; 6]%Z));
    try reflexivity.
  - repeat constructor; intros t; discriminate.
  - simpl. intuition discriminate.
Defined.

(** Four KPI names first seen in the order D, B, A, C: the default is D, B,
    A. *)
Lemma default_selection_first_three_witness :
  exists names distinct res extra before after,
    Pandas.lookup "KPI Name" four_kpis_upload = Some names
    /\ first_seen_order names distinct
    /\ run (Some four_kpis_upload) None
       = (res,
          mkState ([four_kpis_upload] ++ extra)
                  (page_setup_calls ++ before
                   ++ st_sidebar_multiselect "Select KPIs for analysis"
                        distinct (firstn 3 distinct)
                   :: after)).
Proof.
  apply (default_selection_first_three four_kpis_upload None).
  split; reflexivity.
Defined.

Lemma default_selection_short_witness :
  default_kpis (Pandas.unique [Str "Boot"; Str "Latency"; Str "Boot"])
  = Pandas.unique [Str "Boot"; Str "Latency"; Str "Boot"]
  /\ first_seen_order [Str "Boot"; Str "Latency"; Str "Boot"]
                      (Pandas.unique [Str "Boot"; Str "Latency"; Str "Boot"])
  /\ exists res extra before after,
       run (Some two_kpis_upload) None
       = (res,
          mkState ([two_kpis_upload] ++ extra)
                  (page_setup_calls ++ before
                   ++ st_sidebar_multiselect "Select KPIs for analysis"
                        (Pandas.unique [Str "Boot"; Str "Latency"; Str "Boot"])
                        (Pandas.unique [Str "Boot"; Str "Latency"; Str "Boot"])
                   :: after)).
Proof.
  apply (default_selection_short two_kpis_upload None
           [Str "Boot"; Str "Latency"; Str "Boot"]).
  - split; reflexivity.
  - reflexivity.
  - simpl. lia.
Defined.

Lemma kpi_mapping_listing_witness :
  exists listing : list (cell * list cell),
    kpi_mapping 0 (mkState [four_kpis_upload] [])
    = (Ok tt,
       mkState [four_kpis_upload]
               ([] ++ st_subheader "KPI Mapping by Feature"
                   :: mapping_calls listing))
    /\ NoDup (map fst listing)
    /\ (forall feature,
           In feature (map fst listing)
           <-> In feature [Str "Login"; Str "Login"; Str "Sync"; Str "Sync";
                           Str "Sync"; Str "Login"]
               /\ feature <> NaN)
    /\ forall feature kpis, In (feature, kpis) listing ->
         NoDup kpis
         /\ (forall kpi,
                In kpi kpis
                <-> exists i,
                    nth_error [Str "Login"; Str "Login"; Str "Sync"; Str "Sync";
                               Str "Sync"; Str "Login"] i = Some feature
                    /\ nth_error [Str "D"; Str "B"; Str "D"; Str "A"; Str "C";
                                  Str "B"] i = Some kpi)
         /\ StronglySorted lexicographic kpis.
Proof.
  apply (kpi_mapping_listing (mkState [four_kpis_upload] []) 0 four_kpis_upload);
    try reflexivity.
  repeat constructor; eexists; reflexivity.
Defined.

Lemma extract_and_aggregate_repeatable_witness :
  let pass := (m <- extract 0 ;; kpi_analysis 0 (Str "Latency") ;; ret m) in
  exists res out filtered frame runs s1 s2,
    pass (mkState [latency_upload] []) = (res, s1)
    /\ pass s1 = (res, s2)
    /\ log s1 = [] ++ out
    /\ log s2 = log s1 ++ out
    /\ heap s1 = [latency_upload] ++ [filtered; frame]
    /\ heap s2 = heap s1 ++ [filtered; frame]
    /\ Pandas.lookup "Run" frame = Some runs
    /\ holds s1 0 latency_upload
    /\ holds s2 0 latency_upload.
Proof.
  apply (extract_and_aggregate_repeatable (mkState [latency_upload] []) 0
           latency_upload (Str "Latency")).
  - reflexivity.
  - split; reflexivity.
Defined.

(** A valid upload with a missing KPI name next to a name of the same
    feature: [sorted] raises when the names of the feature are listed, after
    the heading of the feature and before any name. *)
Lemma missing_name_raises :
  valid missing_name_upload
  /\ run (Some missing_name_upload) None
     = (Raise TypeError,
        mkState [missing_name_upload]
                (page_setup_calls
                 ++ [st_markdown "<h1 style='text-align: center; font-weight: bold;'>Performance Data Analysis</h1>";
                     st_sidebar_header "KPI Filter";
                     st_sidebar_multiselect "Select KPIs for analysis"
                       [Str "Boot"; Str "Latency"; Str "Sync"; NaN]
                       [Str "Boot"; Str "Latency"; Str "Sync"];
                     st_subheader "Uploaded CSV File Preview";
                     st_write_value "#### OS:" (Str "Android");
                     st_write_value "#### Build Number:" (Str "B42");
                     st_write_value "#### Target Device:" (Str "Pixel");
                     st_write_value "#### OS Version:" (Str "14");
                     st_write_len "#### Unique Features:" 1;
                     st_write_array [Str "Login"];
                     st_write_len "#### Unique KPIs:" 4;
                     st_divider;
                     st_subheader "KPI Mapping by Feature";
                     st_expander (Str "Login")])).
Proof. split; [split |]; reflexivity. Qed.

(** A valid upload whose KPI names are all text, with a row whose feature is
    missing: the preview counts the missing feature among the features, the
    listing has the other feature only, and the KPI name of the row with the
    missing feature is listed nowhere. *)
Example missing_feature_not_listed :
  valid missing_feature_upload
  /\ Pandas.lookup "feature" missing_feature_upload
     = Some [Str "Login"; NaN; Str "Login"]
  /\ Pandas.lookup "KPI Name" missing_feature_upload
     = Some [Str "Boot"; Str "Latency"; Str "Boot"]
  /\ Pandas.unique [Str "Login"; NaN; Str "Login"] = [Str "Login"; NaN]
  /\ kpi_mapping 0 (mkState [missing_feature_upload] [])
     = (Ok tt,
        mkState [missing_feature_upload]
                [st_subheader "KPI Mapping by Feature";
                 st_expander (Str "Login");
                 st_write_bullet (Str "Boot")]).
Proof. repeat split. Qed.


(** An upload whose KPI values are text, and a KPI name it does not have:
    no row is kept, and the analysis raises at the bar data all the same,
    for the column is a column of text. *)
Lemma absent_kpi_text_values_raise :
  valid text_values_upload
  /\ Pandas.lookup "KPI Name" text_values_upload
     = Some [Str "Latency"; Str "Latency"; Str "Latency";
             Str "Latency"; Str "Latency"; Str "Latency"]
  /\ ~ In (Str "Throughput")
          [Str "Latency"; Str "Latency"; Str "Latency";
           Str "Latency"; Str "Latency"; Str "Latency"]
  /\ exists trend filtered,
       kpi_analysis 0 (Str "Throughput") (mkState [text_values_upload] [])
       = (Raise TypeError,
          mkState [text_values_upload; filtered; trend]
                  [st_subheader_kpi (Str "Throughput");
                   st_markdown "#### Trend Chart";
                   st_altair_chart mark_line trend;
                   st_markdown "#### Bar Chart"])
       /\ no_rows trend.
Proof.
  split; [split; reflexivity |]. split; [reflexivity |].
  split; [simpl; intuition discriminate |].
  eexists _, _. split; [reflexivity |]. repeat constructor.
Qed.

(** * Further properties of the script *)

(** ** The column check *)

(** X1.  The column check looks at presence only: two uploads that have the
    same required columns, in whatever order and with whatever other columns,
    are reported the same missing columns. *)
Theorem missing_columns_presence_only (cols cols' : list string) :
  (forall col, In col REQUIRED_COLUMNS -> (In col cols <-> In col cols')) ->
  missing_columns cols = missing_columns cols'.
Proof.
  intros H. unfold missing_columns. apply filter_ext_in. intros col Hc.
  f_equal. specialize (H col Hc). rewrite <- !str_in_In in H.
  destruct (str_in col cols), (str_in col cols'); intuition congruence.
Qed.

Lemma missing_columns_presence_only_witness :
  missing_columns ["KPI Value"; "Notes"; "OS"; "Load"; "OS"]
  = missing_columns ["Load"; "OS"; "KPI Value"].
Proof.
  apply (missing_columns_presence_only
           ["KPI Value"; "Notes"; "OS"; "Load"; "OS"]
           ["Load"; "OS"; "KPI Value"]).
  intros col Hc. simpl in Hc.
  repeat (destruct Hc as [Hc | Hc]; [subst col; simpl; intuition discriminate |]).
  destruct Hc.
Defined.

(** ** The three treatments of an upload *)

Lemma run_valid_begins contents choice :
  valid contents ->
  exists res extra out,
    run (Some contents) choice
    = (res, mkState ([contents] ++ extra) (page_setup_calls ++ title :: out)).
Proof.
  intros [Hm Hc].
  destruct (render_begins 0 contents choice) as [res [extra [out Hr]]].
  exists res, extra, out.
  rewrite (run_checked contents choice Hm), Hc.
  now rewrite (Hr (mkState [contents] page_setup_calls) eq_refl).
Qed.

(** X2.  The title and what follows it are rendered for the valid uploads
    and for no other: the first call after the page setup is the title
    exactly when the upload has every required column and one value in each
    constant column. *)
Theorem rendering_iff_valid (contents : DataFrame) (choice : option Series) :
  valid contents
  <-> exists res extra out,
      run (Some contents) choice
      = (res, mkState ([contents] ++ extra) (page_setup_calls ++ title :: out)).
Proof.
  split; [apply run_valid_begins |].
  intros [res [extra [out H]]].
  destruct (missing_columns (Pandas.columns contents)) as [| col rest] eqn:Em.
  - split; [exact Em |].
    destruct (consistent contents) eqn:Ec; [reflexivity | exfalso].
    rewrite (run_checked contents choice Em), Ec in H.
    inversion H.
  - exfalso. rewrite (run_missing contents choice col rest Em) in H.
    inversion H.
Qed.

(** ** The constant columns *)

Lemma NoDup_all_equal {A} (v : A) l :
  NoDup l -> In v l -> (forall x, In x l -> x = v) -> length l = 1.
Proof.
  intros Hnd Hin Hall. destruct l as [| a [| b r]].
  - destruct Hin.
  - reflexivity.
  - exfalso. inversion Hnd as [| ? ? Hna _]; subst. apply Hna.
    rewrite (Hall a), (Hall b); simpl; auto.
Qed.

(** [nunique] is one exactly when the column holds one value, missing
    entries apart. *)
Lemma nunique_one column : Pandas.nunique column = 1 <-> one_value column.
Proof.
  unfold Pandas.nunique, one_value. split.
  - intros H.
    destruct (Pandas.unique (Pandas.dropna column)) as [| v [| b r]] eqn:E;
      try discriminate.
    assert (Hin : forall x, In x column /\ x <> NaN <-> x = v).
    { intros x. rewrite <- dropna_In, <- unique_In, E. simpl. intuition. }
    exists v. destruct (proj2 (Hin v) eq_refl) as [Hv Hn].
    split; [exact Hn |]. split; [exact Hv |].
    intros x Hx. destruct (cell_eq_dec x NaN) as [Hnan | Hnan]; [now right |].
    left. apply Hin. now split.
  - intros [v [Hn [Hv Hall]]].
    apply (NoDup_all_equal v).
    + apply unique_NoDup.
    + rewrite unique_In, dropna_In. now split.
    + intros x Hx. rewrite unique_In, dropna_In in Hx. destruct Hx as [Hx Hnan].
      destruct (Hall x Hx); [assumption | contradiction].
Qed.

(** X3.  On an upload with every required column the constant check raises
    nothing and changes nothing, and it succeeds exactly when each of the
    four constant columns holds one value, missing entries apart: a missing
    entry in a constant column does not make the upload inconsistent, and a
    constant column with missing entries only does. *)
Theorem csv_status_one_value (s : state) (data_set : ref) (df : DataFrame) :
  holds s data_set df ->
  missing_columns (Pandas.columns df) = [] ->
  exists ok,
    csv_status data_set s = (Ok ok, s)
    /\ (ok = true
        <-> forall col, In col CONSTANT_COLUMNS ->
              exists column, Pandas.lookup col df = Some column
                             /\ one_value column).
Proof.
  intros Hs Hm. exists (consistent df).
  split; [now apply csv_status_run |].
  unfold consistent. rewrite forallb_forall. split.
  - intros H col Hc. specialize (H col Hc). unfold single_valued in H.
    destruct (Pandas.lookup col df) as [column |]; [| discriminate].
    exists column. split; [reflexivity |].
    apply nunique_one. now apply Nat.eqb_eq.
  - intros H col Hc. destruct (H col Hc) as [column [Hl Hone]].
    unfold single_valued. rewrite Hl. apply Nat.eqb_eq. now apply nunique_one.
Qed.

Lemma csv_status_one_value_witness :
  exists ok,
    csv_status 0 (mkState [missing_os_upload] [])
    = (Ok ok, mkState [missing_os_upload] [])
    /\ (ok = true
        <-> forall col, In col CONSTANT_COLUMNS ->
              exists column, Pandas.lookup col missing_os_upload = Some column
                             /\ one_value column).
Proof.
  apply (csv_status_one_value (mkState [missing_os_upload] []) 0
           missing_os_upload); reflexivity.
Defined.

(** ** The metadata *)

Lemma valid_constant_shown df col :
  valid df -> In col CONSTANT_COLUMNS ->
  exists shown rest,
    Pandas.lookup col df = Some (shown :: rest)
    /\ (shown <> NaN -> forall x, In x rest -> x = shown \/ x = NaN).
Proof.
  intros Hv Hin.
  destruct (valid_constant df col Hv Hin) as [shown [rest Hl]].
  exists shown, rest. split; [exact Hl |].
  destruct Hv as [_ Hc]. unfold consistent in Hc. rewrite forallb_forall in Hc.
  specialize (Hc col Hin). unfold single_valued in Hc. rewrite Hl in Hc.
  apply Nat.eqb_eq, nunique_one in Hc. destruct Hc as [v [Hn [Hv Hall]]].
  intros Hshown x Hx.
  destruct (Hall shown (or_introl eq_refl)) as [E | E]; [subst v | contradiction].
  apply Hall. now right.
Qed.

(** X4.  On a valid upload the extraction of the metadata raises nothing,
    makes no call and creates no object.  The value it gives for a constant
    column is the entry of the first row; when that entry is not missing,
    every other entry of the column is that value or is missing.  The
    features and the KPI names it gives are the distinct entries of their
    columns in order of first appearance. *)
Theorem extract_valid (s : state) (data_set : ref) (df : DataFrame) :
  holds s data_set df ->
  valid df ->
  exists m,
    extract data_set s = (Ok m, s)
    /\ (forall col shown,
           In (col, shown) [("OS", os m); ("Build Number", build m);
                            ("Target Device", device m);
                            ("OS Version", os_version m)] ->
           exists rest,
             Pandas.lookup col df = Some (shown :: rest)
             /\ (shown <> NaN ->
                 forall x, In x rest -> x = shown \/ x = NaN))
    /\ (exists features, Pandas.lookup "feature" df = Some features
                         /\ first_seen_order features (unique_features m))
    /\ exists names, Pandas.lookup "KPI Name" df = Some names
                     /\ first_seen_order names (unique_kpis m).
Proof.
  intros Hs Hv.
  destruct (required_lookup df "feature" (proj1 Hv)) as [features Hf]; [simpl; tauto |].
  destruct (required_lookup df "KPI Name" (proj1 Hv)) as [names Hn]; [simpl; tauto |].
  destruct (valid_constant_shown df "OS" Hv) as [c1 [r1 [H1 A1]]]; [simpl; tauto |].
  destruct (valid_constant_shown df "Build Number" Hv) as [c2 [r2 [H2 A2]]]; [simpl; tauto |].
  destruct (valid_constant_shown df "Target Device" Hv) as [c3 [r3 [H3 A3]]]; [simpl; tauto |].
  destruct (valid_constant_shown df "OS Version" Hv) as [c4 [r4 [H4 A4]]]; [simpl; tauto |].
  exists (mkMetadata c1 c2 c3 c4 (Pandas.unique features) (Pandas.unique names)).
  split; [| split; [| split]].
  - unfold extract, bind.
    rewrite (first_of_run s data_set df _ _ _ Hs H1).
    rewrite (first_of_run s data_set df _ _ _ Hs H2).
    rewrite (first_of_run s data_set df _ _ _ Hs H3).
    rewrite (first_of_run s data_set df _ _ _ Hs H4).
    rewrite (getitem_run s data_set df _ _ Hs Hf).
    rewrite (getitem_run s data_set df _ _ Hs Hn).
    reflexivity.
  - intros col shown Hin. simpl in Hin.
    destruct Hin as [E | [E | [E | [E | []]]]]; inversion E; subst; eauto.
  - exists features. split; [exact Hf | apply unique_first_seen].
  - exists names. split; [exact Hn | apply unique_first_seen].
Qed.

Lemma extract_valid_witness :
  exists m,
    extract 0 (mkState [missing_os_upload] [])
    = (Ok m, mkState [missing_os_upload] [])
    /\ (forall col shown,
           In (col, shown) [("OS", os m); ("Build Number", build m);
                            ("Target Device", device m);
                            ("OS Version", os_version m)] ->
           exists rest,
             Pandas.lookup col missing_os_upload = Some (shown :: rest)
             /\ (shown <> NaN ->
                 forall x, In x rest -> x = shown \/ x = NaN))
    /\ (exists features, Pandas.lookup "feature" missing_os_upload = Some features
                         /\ first_seen_order features (unique_features m))
    /\ exists names, Pandas.lookup "KPI Name" missing_os_upload = Some names
                     /\ first_seen_order names (unique_kpis m).
Proof.
  apply (extract_valid (mkState [missing_os_upload] []) 0 missing_os_upload).
  - reflexivity.
  - split; reflexivity.
Defined.

(** On the upload whose first row has no OS, the OS shown is the missing
    value, although the column holds one value. *)
Example missing_os_shown :
  valid missing_os_upload
  /\ fst (extract 0 (mkState [missing_os_upload] []))
     = Ok (mkMetadata NaN (Str "B42") (Str "Pixel") (Str "14")
                      [Str "Login"] [Str "Latency"]).
Proof. split; [split |]; reflexivity. Qed.

(** ** The frame of one KPI *)

Lemma columns_getitem_mask df mask :
  Pandas.columns (Pandas.getitem_mask df mask) = Pandas.columns df.
Proof.
  unfold Pandas.columns, Pandas.getitem_mask. rewrite map_map.
  apply map_ext. now intros [name s].
Qed.

Lemma columns_setitem df col s :
  Pandas.columns (Pandas.setitem df col s)
  = if str_in col (Pandas.columns df) then Pandas.columns df
    else Pandas.columns df ++ [col].
Proof.
  induction df as [| [name old] rest IH]; simpl; [reflexivity |].
  destruct (String.eqb col name) eqn:E; simpl; [reflexivity |].
  rewrite IH. unfold str_in. now destruct (existsb (String.eqb col) (Pandas.columns rest)).
Qed.

(** X5.  The frame made for a KPI at lines 115 and 116 has the columns of the
    upload in their order, with the run index as a last column, or, when the
    upload already has a column named [Run], in the place of that column.
    Every other column holds the entries of the upload's column on the rows
    with this KPI name, in row order. *)
Theorem kpi_data_columns (s : state) (data_set : ref) (df : DataFrame)
        (kpi : cell) :
  holds s data_set df ->
  missing_columns (Pandas.columns df) = [] ->
  exists kpi_data s' names,
    Pandas.lookup "KPI Name" df = Some names
    /\ make_kpi_data data_set kpi s = (Ok kpi_data, s')
    /\ Pandas.columns (nth kpi_data (heap s') [])
       = (if str_in "Run" (Pandas.columns df) then Pandas.columns df
          else Pandas.columns df ++ ["Run"])
    /\ forall col, col <> "Run" ->
         Pandas.lookup col (nth kpi_data (heap s') [])
         = option_map (Pandas.select (Pandas.eq_scalar names kpi))
                      (Pandas.lookup col df).
Proof.
  intros Hs Hm.
  destruct (required_lookup df "KPI Name" Hm) as [names Hn]; [simpl; tauto |].
  destruct (required_lookup df "Load" Hm) as [loads0 Hl]; [simpl; tauto |].
  pose proof (make_kpi_data_ok s data_set df kpi names loads0 Hs Hn Hl) as Hrun.
  cbv zeta in Hrun.
  eexists _, _, names. split; [exact Hn |]. split; [exact Hrun |].
  simpl heap. rewrite nth_second_new. split.
  - now rewrite columns_setitem, columns_getitem_mask.
  - intros col Hcol. rewrite lookup_setitem_ne by congruence.
    apply lookup_getitem_mask.
Qed.

Lemma kpi_data_columns_witness :
  exists kpi_data s' names,
    Pandas.lookup "KPI Name" with_run_upload = Some names
    /\ make_kpi_data 0 (Str "Latency") (mkState [with_run_upload] [])
       = (Ok kpi_data, s')
    /\ Pandas.columns (nth kpi_data (heap s') [])
       = (if str_in "Run" (Pandas.columns with_run_upload)
          then Pandas.columns with_run_upload
          else Pandas.columns with_run_upload ++ ["Run"])
    /\ forall col, col <> "Run" ->
         Pandas.lookup col (nth kpi_data (heap s') [])
         = option_map (Pandas.select (Pandas.eq_scalar names (Str "Latency")))
                      (Pandas.lookup col with_run_upload).
Proof.
  apply (kpi_data_columns (mkState [with_run_upload] []) 0 with_run_upload
           (Str "Latency")); reflexivity.
Defined.

(** The [Run] column of an upload is lost in the frame of a KPI. *)
Example with_run_upload_overwritten :
  exists frame,
    nth_error (heap (snd (make_kpi_data 0 (Str "Latency")
                            (mkState [with_run_upload] [])))) 2
    = Some frame
    /\ Pandas.columns frame = Pandas.columns with_run_upload
    /\ option_map (map as_Q) (Pandas.lookup "Run" frame)
       = Some [Some 1%Q; Some 1%Q; Some 2%Q; Some 2%Q; Some 3%Q; Some 3%Q].
Proof. eexists. repeat split. Qed.

Lemma lookup_rectangular df n col s :
  rectangular df n -> Pandas.lookup col df = Some s -> length s = n.
Proof.
  unfold rectangular. induction df as [| [name x] rest IH]; simpl; intros Hr Hl.
  - discriminate.
  - apply Forall_cons_iff in Hr. destruct Hr as [Hx Hrest]. simpl in Hx.
    destruct (String.eqb col name); [congruence | now apply IH].
Qed.

Lemma select_eq_scalar_length names kpi (s : Series) :
  kpi <> NaN ->
  length s = length names ->
  length (Pandas.select (Pandas.eq_scalar names kpi) s)
  = count_occ cell_eq_dec names kpi.
Proof.
  intros Hk. revert s. induction names as [| n names IH]; intros s Hlen.
  - reflexivity.
  - destruct s as [| x s]; [discriminate |]. simpl in Hlen.
    simpl. unfold Pandas.py_eq, cell_eqb.
    destruct (cell_eq_dec n kpi) as [E | E].
    + subst n. destruct kpi; [congruence | |]; simpl; rewrite IH; auto.
    + rewrite andb_false_r. apply IH. lia.
Qed.

Lemma select_eq_scalar_names names kpi :
  kpi <> NaN ->
  Pandas.select (Pandas.eq_scalar names kpi) names
  = repeat kpi (count_occ cell_eq_dec names kpi).
Proof.
  intros Hk. induction names as [| n names IH]; [reflexivity |].
  simpl. unfold Pandas.py_eq, cell_eqb.
  destruct (cell_eq_dec n kpi) as [E | E].
  - subst n. destruct kpi; [congruence | |]; simpl; now rewrite IH.
  - rewrite andb_false_r. exact IH.
Qed.

Lemma rectangular_getitem_mask df n names kpi :
  kpi <> NaN ->
  rectangular df n -> length names = n ->
  rectangular (Pandas.getitem_mask df (Pandas.eq_scalar names kpi))
              (count_occ cell_eq_dec names kpi).
Proof.
  intros Hk Hr Hn. unfold rectangular, Pandas.getitem_mask in *.
  apply Forall_map. rewrite Forall_forall in *. intros [name s] Hin. simpl.
  apply select_eq_scalar_length; [exact Hk |].
  specialize (Hr _ Hin). simpl in Hr. lia.
Qed.

Lemma rectangular_setitem df n col s :
  rectangular df n -> length s = n -> rectangular (Pandas.setitem df col s) n.
Proof.
  unfold rectangular. intros Hr Hs.
  induction df as [| [name old] rest IH]; simpl.
  - now repeat constructor.
  - apply Forall_cons_iff in Hr. destruct Hr as [Hx Hrest].
    destruct (String.eqb col name); constructor; auto.
Qed.

(** X6.  When every column of the upload has one entry for each of its rows,
    the frame made for a KPI name that is not the missing value has one row
    for each row of the upload with that KPI name, in every column, the run
    index included, and its [KPI Name] column holds that name on every
    row. *)
Theorem kpi_data_rows (s : state) (data_set : ref) (df : DataFrame)
        (kpi : cell) (n : nat) :
  holds s data_set df ->
  missing_columns (Pandas.columns df) = [] ->
  rectangular df n ->
  kpi <> NaN ->
  exists kpi_data s' names,
    Pandas.lookup "KPI Name" df = Some names
    /\ make_kpi_data data_set kpi s = (Ok kpi_data, s')
    /\ rectangular (nth kpi_data (heap s') [])
                   (count_occ cell_eq_dec names kpi)
    /\ Pandas.lookup "KPI Name" (nth kpi_data (heap s') [])
       = Some (repeat kpi (count_occ cell_eq_dec names kpi)).
Proof.
  intros Hs Hm Hr Hk.
  destruct (required_lookup df "KPI Name" Hm) as [names Hn]; [simpl; tauto |].
  destruct (required_lookup df "Load" Hm) as [loads0 Hl]; [simpl; tauto |].
  pose proof (lookup_rectangular df n _ _ Hr Hn) as Hnames.
  pose proof (lookup_rectangular df n _ _ Hr Hl) as Hloads.
  pose proof (make_kpi_data_ok s data_set df kpi names loads0 Hs Hn Hl) as Hrun.
  cbv zeta in Hrun.
  eexists _, _, names. split; [exact Hn |]. split; [exact Hrun |].
  simpl heap. rewrite nth_second_new. split.
  - apply rectangular_setitem.
    + now apply (rectangular_getitem_mask df n).
    + rewrite add1_length. unfold Pandas.cumcount.
      rewrite cumcount_from_length.
      apply select_eq_scalar_length; [exact Hk | lia].
  - rewrite lookup_setitem_ne by discriminate.
    rewrite lookup_getitem_mask, Hn. simpl.
    now rewrite select_eq_scalar_names.
Qed.

Lemma kpi_data_rows_witness :
  exists kpi_data s' names,
    Pandas.lookup "KPI Name" two_kpis_upload = Some names
    /\ make_kpi_data 0 (Str "Boot") (mkState [two_kpis_upload] [])
       = (Ok kpi_data, s')
    /\ rectangular (nth kpi_data (heap s') [])
                   (count_occ cell_eq_dec names (Str "Boot"))
    /\ Pandas.lookup "KPI Name" (nth kpi_data (heap s') [])
       = Some (repeat (Str "Boot") (count_occ cell_eq_dec names (Str "Boot"))).
Proof.
  apply (kpi_data_rows (mkState [two_kpis_upload] []) 0 two_kpis_upload
           (Str "Boot") 3).
  - reflexivity.
  - reflexivity.
  - repeat constructor.
  - discriminate.
Defined.

(** ** The missing value as a selected KPI *)

Lemma eq_scalar_NaN names :
  Forall (fun b => b = false) (Pandas.eq_scalar names NaN).
Proof.
  unfold Pandas.eq_scalar. apply Forall_map, Forall_forall. intros c _.
  destruct c; reflexivity.
Qed.

(** X7.  The missing value, selected as a KPI, matches no row, also when
    KPI names of the upload are missing, for [==] holds of no missing entry:
    on an upload whose KPI values are numbers or missing, its analysis
    raises nothing and passes three tables without rows. *)
Theorem missing_kpi_matches_no_row (s : state) (data_set : ref)
        (df : DataFrame) (vals : Series) :
  holds s data_set df ->
  missing_columns (Pandas.columns df) = [] ->
  Pandas.lookup "KPI Value" df = Some vals ->
  Forall numeric vals ->
  exists trend extra,
    kpi_analysis data_set NaN s
    = (Ok tt,
       mkState (heap s ++ extra)
               (log s ++ [st_subheader_kpi NaN;
                          st_markdown "#### Trend Chart";
                          st_altair_chart mark_line trend;
                          st_markdown "#### Bar Chart";
                          st_altair_chart mark_bar
                            [("Load", []); ("KPI Value", [])];
                          st_markdown "#### Summary Statistics by Load";
                          st_dataframe
                            [("Load", []); ("Min (sec)", []); ("Max (sec)", []);
                             ("Mean (sec)", []); ("Median (sec)", [])]]))
    /\ no_rows trend
    /\ Pandas.lookup "Run" trend = Some [].
Proof.
  intros Hs Hm Hv Hnum.
  destruct (required_lookup df "KPI Name" Hm) as [names Hn]; [simpl; tauto |].
  apply (kpi_analysis_no_match s data_set df NaN names vals Hs Hm Hn Hv Hnum).
  apply eq_scalar_NaN.
Qed.

Lemma missing_kpi_matches_no_row_witness :
  exists trend extra,
    kpi_analysis 0 NaN (mkState [missing_name_upload] [])
    = (Ok tt,
       mkState ([missing_name_upload] ++ extra)
               ([] ++ [st_subheader_kpi NaN;
                       st_markdown "#### Trend Chart";
                       st_altair_chart mark_line trend;
                       st_markdown "#### Bar Chart";
                       st_altair_chart mark_bar
                         [("Load", []); ("KPI Value", [])];
                       st_markdown "#### Summary Statistics by Load";
                       st_dataframe
                         [("Load", []); ("Min (sec)", []); ("Max (sec)", []);
                          ("Mean (sec)", []); ("Median (sec)", [])]]))
    /\ no_rows trend
    /\ Pandas.lookup "Run" trend = Some [].
Proof.
  apply (missing_kpi_matches_no_row (mkState [missing_name_upload] []) 0
           missing_name_upload
           (map (fun z => Num (Q2Qc (inject_Z z))) [1; 2; 3; 4]%Z));
    try reflexivity.
  repeat constructor; intros t; discriminate.
Defined.

(** ** The groups of an aggregation *)

Lemma numbers_cases s :
  (Forall numeric s /\ Pandas.numbers s = Ok (present s))
  \/ (exists t, In (Str t) s /\ Pandas.numbers s = Raise TypeError).
Proof.
  induction s as [| c rest IH].
  - left. split; [constructor | reflexivity].
  - destruct c as [| t | q].
    + destruct IH as [[Hn He] | [t [Ht He]]].
      * left. split; [constructor; [intros t; discriminate | exact Hn] | exact He].
      * right. exists t. split; [now right | exact He].
    + right. exists t. split; [now left | reflexivity].
    + simpl. destruct IH as [[Hn He] | [t [Ht He]]]; rewrite He.
      * left. split; [constructor; [intros t; discriminate | exact Hn] | reflexivity].
      * right. exists t. split; [now right | reflexivity].
Qed.

Lemma aggregate_cases f keys vals ks :
  (Forall (fun k => Forall numeric (Pandas.group keys vals k)) ks
   /\ Pandas.aggregate f keys vals ks
      = Ok (map (fun k => f (present (Pandas.group keys vals k))) ks))
  \/ (exists k t, In k ks /\ In (Str t) (Pandas.group keys vals k)
                  /\ Pandas.aggregate f keys vals ks = Raise TypeError).
Proof.
  induction ks as [| k rest IH].
  - left. split; [constructor | reflexivity].
  - simpl. destruct (numbers_cases (Pandas.group keys vals k))
      as [[Hn He] | [t [Ht He]]]; rewrite He.
    + destruct IH as [[Hall Ha] | [k' [t [Hk [Ht Ha]]]]]; rewrite Ha.
      * left. split; [now constructor | reflexivity].
      * right. exists k', t. repeat split; auto.
    + right. exists k, t. repeat split; auto.
Qed.

Lemma aggregate_numeric_groups f keys vals ks :
  Forall (fun k => Forall numeric (Pandas.group keys vals k)) ks ->
  Pandas.aggregate f keys vals ks
  = Ok (map (fun k => f (present (Pandas.group keys vals k))) ks).
Proof.
  intros H. destruct (aggregate_cases f keys vals ks)
    as [[_ Ha] | [k [t [Hk [Ht _]]]]]; [exact Ha | exfalso].
  rewrite Forall_forall in H. specialize (H k Hk).
  rewrite Forall_forall in H. now apply (H _ Ht t).
Qed.

(** ** What the script can raise *)

Lemma value_error_TypeError : value_error TypeError.
Proof. now left. Qed.

Lemma safe_ret {A} r df (a : A) : safe r df (ret a).
Proof.
  exists (Ok a), [], []. split; [| discriminate].
  intros s _. unfold ret. now rewrite state_same.
Qed.

Lemma safe_st r df c : safe r df (st c).
Proof.
  exists (Ok tt), [], [c]. split; [| discriminate].
  intros s _. unfold st. now rewrite app_nil_r.
Qed.

Lemma safe_lift {A} r df (x : result A) :
  (forall e, x = Raise e -> e = TypeError) -> safe r df (lift x).
Proof.
  intros H. exists x, [], []. split.
  - intros s _. unfold lift. now rewrite state_same.
  - intros e He. rewrite (H e He). apply value_error_TypeError.
Qed.

Lemma safe_bind {A B} r df (m : M A) (f : A -> M B) :
  safe r df m -> (forall a, safe r df (f a)) -> safe r df (bind m f).
Proof.
  intros [res [extra [out [Hm Hres]]]] Hf.
  destruct res as [a | e].
  - destruct (Hf a) as [res' [extra' [out' [Hfa Hres']]]].
    exists res', (extra ++ extra'), (out ++ out'). split; [| exact Hres'].
    intros s Hs. unfold bind. rewrite (Hm s Hs).
    rewrite (Hfa _ (holds_app _ _ _ extra out Hs)). simpl.
    now rewrite !app_assoc.
  - exists (Raise e), extra, out. split.
    + intros s Hs. unfold bind. now rewrite (Hm s Hs).
    + intros e' He'. inversion He'; subst. now apply Hres.
Qed.

Lemma safe_for_each {A} r df (l : list A) (body : A -> M unit) :
  (forall x, safe r df (body x)) -> safe r df (for_each l body).
Proof.
  intros H. induction l as [| x rest IH]; simpl.
  - apply safe_ret.
  - apply safe_bind; [apply H | intros _; exact IH].
Qed.

Lemma safe_getitem r df col x :
  Pandas.lookup col df = Some x -> safe r df (df_getitem r col).
Proof.
  intros Hx. exists (Ok x), [], []. split; [| discriminate].
  intros s Hs. rewrite (getitem_run s r df col x Hs Hx). now rewrite state_same.
Qed.

Lemma py_lt_raises a b e : py_lt a b = Raise e -> e = TypeError.
Proof. destruct a, b; simpl; congruence. Qed.

Lemma py_insert_raises x l e : py_insert x l = Raise e -> e = TypeError.
Proof.
  induction l as [| y r IH]; simpl; [discriminate |].
  destruct (py_lt y x) as [[|] | e'] eqn:E.
  - destruct (py_insert x r) as [r' | e'']; [discriminate |].
    intros H. apply IH. congruence.
  - discriminate.
  - intros H. inversion H; subst. now apply (py_lt_raises y x).
Qed.

Lemma sorted_raises l e : sorted l = Raise e -> e = TypeError.
Proof.
  induction l as [| x r IH]; simpl; [discriminate |].
  destruct (sorted r) as [r' | e'].
  - apply py_insert_raises.
  - intros H. apply IH. congruence.
Qed.

Lemma safe_kpi_mapping r df :
  missing_columns (Pandas.columns df) = [] -> safe r df (kpi_mapping r).
Proof.
  intros Hm.
  destruct (required_lookup df "feature" Hm) as [features Hf]; [simpl; tauto |].
  destruct (required_lookup df "KPI Name" Hm) as [names Hn]; [simpl; tauto |].
  unfold kpi_mapping.
  apply safe_bind; [apply safe_st | intros _].
  apply safe_bind; [apply (safe_getitem r df _ _ Hf) | intros fs].
  apply safe_bind; [apply (safe_getitem r df _ _ Hn) | intros ns].
  apply safe_for_each. intros [feature kpis].
  apply safe_bind; [apply safe_st | intros _].
  apply safe_bind; [apply safe_lift, sorted_raises | intros listing].
  apply safe_for_each. intros kpi. apply safe_st.
Qed.

Lemma groupby_agg_raises f keys vals e :
  Pandas.groupby_agg f keys vals = Raise e -> e = TypeError.
Proof.
  unfold Pandas.groupby_agg.
  destruct (aggregate_cases f keys vals (Pandas.group_keys keys))
    as [[_ Ha] | [k [t [_ [_ Ha]]]]]; rewrite Ha; congruence.
Qed.

(** On a frame that has the two columns, the bar data and the table of
    statistics raise nothing but [TypeError]. *)
Lemma mean_data_raises frame loads vals e :
  Pandas.getitem frame "Load" = Ok loads ->
  Pandas.getitem frame "KPI Value" = Ok vals ->
  mean_data frame = Raise e -> e = TypeError.
Proof.
  intros HL HV. unfold mean_data. rewrite HL, HV.
  destruct (Pandas.groupby_agg Pandas.stat_mean loads vals) as [x | e'] eqn:E;
    [discriminate |].
  intros H. inversion H; subst. now apply (groupby_agg_raises _ _ _ _ E).
Qed.

Lemma summary_raises frame loads vals e :
  Pandas.getitem frame "Load" = Ok loads ->
  Pandas.getitem frame "KPI Value" = Ok vals ->
  summary frame = Raise e -> e = TypeError.
Proof.
  intros HL HV. unfold summary. rewrite HL, HV.
  destruct (Pandas.groupby_agg Pandas.stat_min loads vals) as [x1 | e1] eqn:E1;
    [| intros H; inversion H; subst; now apply (groupby_agg_raises _ _ _ _ E1)].
  destruct (Pandas.groupby_agg Pandas.stat_max loads vals) as [x2 | e2] eqn:E2;
    [| intros H; inversion H; subst; now apply (groupby_agg_raises _ _ _ _ E2)].
  destruct (Pandas.groupby_agg Pandas.stat_mean loads vals) as [x3 | e3] eqn:E3;
    [| intros H; inversion H; subst; now apply (groupby_agg_raises _ _ _ _ E3)].
  destruct (Pandas.groupby_agg Pandas.stat_median loads vals) as [x4 | e4] eqn:E4;
    [discriminate |].
  intros H; inversion H; subst; now apply (groupby_agg_raises _ _ _ _ E4).
Qed.

Lemma safe_kpi_analysis r df kpi :
  missing_columns (Pandas.columns df) = [] -> safe r df (kpi_analysis r kpi).
Proof.
  intros Hm.
  destruct (required_lookup df "KPI Name" Hm) as [names Hn]; [simpl; tauto |].
  destruct (required_lookup df "Load" Hm) as [loads Hl]; [simpl; tauto |].
  destruct (required_lookup df "KPI Value" Hm) as [vals Hv]; [simpl; tauto |].
  set (mask := Pandas.eq_scalar names kpi).
  set (filtered := Pandas.getitem_mask df mask).
  set (frame := Pandas.setitem filtered "Run"
                  (Pandas.add1 (Pandas.cumcount (Pandas.select mask loads)))).
  assert (HL : Pandas.getitem frame "Load" = Ok (Pandas.select mask loads)).
  { unfold Pandas.getitem, frame, filtered.
    rewrite lookup_setitem_ne by discriminate.
    now rewrite lookup_getitem_mask, Hl. }
  assert (HV : Pandas.getitem frame "KPI Value" = Ok (Pandas.select mask vals)).
  { unfold Pandas.getitem, frame, filtered.
    rewrite lookup_setitem_ne by discriminate.
    now rewrite lookup_getitem_mask, Hv. }
  assert (Hrun : forall s, holds s r df ->
            make_kpi_data r kpi s
            = (Ok (S (length (heap s))),
               mkState (heap s ++ [filtered; frame]) (log s))).
  { intros s Hs. now apply make_kpi_data_ok. }
  pose proof (kpi_analysis_run r df kpi filtered frame Hrun) as H.
  cbv zeta in H. unfold Pandas.getitem in H at 1. rewrite Hv in H.
  destruct (Pandas.text_dtype vals).
  { eexists _, _, _. split; [exact H |].
    intros e He. inversion He. apply value_error_TypeError. }
  destruct (mean_data frame) as [bars | e] eqn:E3.
  2:{ eexists _, _, _. split; [exact H |].
      intros e' He. inversion He; subst e'.
      rewrite (mean_data_raises frame _ _ e HL HV E3).
      apply value_error_TypeError. }
  destruct (summary frame) as [table | e] eqn:E4.
  - eexists _, _, _. split; [exact H | discriminate].
  - eexists _, _, _. split; [exact H |].
    intros e' He. inversion He; subst e'.
    rewrite (summary_raises frame _ _ e HL HV E4).
    apply value_error_TypeError.
Qed.

Lemma safe_extract r df : valid df -> safe r df (extract r).
Proof.
  intros Hv.
  destruct (required_lookup df "feature" (proj1 Hv)) as [features Hf]; [simpl; tauto |].
  destruct (required_lookup df "KPI Name" (proj1 Hv)) as [names Hn]; [simpl; tauto |].
  destruct (extract_ok r df features names Hv Hf Hn) as [m [_ [_ Hex]]].
  exists (Ok m), [], []. split; [| discriminate].
  intros s Hs. rewrite (Hex s Hs). now rewrite state_same.
Qed.

Lemma safe_multiselect r df choice label options default :
  safe r df (multiselect choice label options default).
Proof.
  unfold multiselect.
  apply safe_bind; [apply safe_st | intros _].
  destruct (in_list NaN default); [| apply safe_ret].
  exists (Raise StreamlitDefaultNotInOptionsError), [], []. split.
  - intros s _. unfold raise. now rewrite state_same.
  - intros e He. inversion He. now right.
Qed.

Lemma safe_render r df choice : valid df -> safe r df (render r choice).
Proof.
  intros Hv. unfold render.
  apply safe_bind; [apply safe_st | intros _].
  apply safe_bind; [now apply safe_extract | intros m].
  apply safe_bind; [apply safe_st | intros _].
  apply safe_bind; [apply safe_multiselect | intros selected].
  apply safe_bind.
  { unfold preview. repeat (apply safe_bind; [apply safe_st | intros _]). apply safe_st. }
  intros _.
  apply safe_bind; [apply safe_kpi_mapping, (proj1 Hv) | intros _].
  apply safe_for_each. intros kpi. apply safe_kpi_analysis, (proj1 Hv).
Qed.

(** X9.  Whatever table is uploaded and whatever is selected, the script
    raises no [KeyError] and no [IndexError]: the column check stands before
    every access to a column, and the constant check before every first
    entry.  The stop is raised for the uploads that lack a column, and for
    these only. *)
Theorem run_raises_no_access_error (uploaded_file : option DataFrame)
        (choice : option Series) (e : exn) :
  fst (run uploaded_file choice) = Raise e ->
  (forall col, e <> KeyError col)
  /\ e <> IndexError
  /\ exists contents,
       uploaded_file = Some contents
       /\ (e = StopException
           <-> missing_columns (Pandas.columns contents) <> []).
Proof.
  destruct uploaded_file as [contents |]; [| discriminate].
  intros H.
  destruct (missing_columns (Pandas.columns contents)) as [| col rest] eqn:Em.
  - rewrite (run_checked contents choice Em) in H.
    destruct (consistent contents) eqn:Ec; [| discriminate].
    destruct (safe_render 0 contents choice (conj Em Ec))
      as [res [extra [out [Hr Hres]]]].
    rewrite (Hr (mkState [contents] page_setup_calls) eq_refl) in H.
    simpl in H. specialize (Hres e H).
    split; [intros c Hc; destruct Hres; congruence |].
    split; [intros Hc; destruct Hres; congruence |].
    exists contents. split; [reflexivity |].
    split; [intros Hc; destruct Hres; congruence | congruence].
  - rewrite (run_missing contents choice col rest Em) in H.
    simpl in H. inversion H; subst e.
    split; [discriminate |]. split; [discriminate |].
    exists contents. split; [reflexivity |].
    rewrite Em. split; [discriminate | reflexivity].
Qed.

Lemma run_raises_no_access_error_witness :
  (forall col, TypeError <> KeyError col)
  /\ TypeError <> IndexError
  /\ exists contents,
       Some text_values_upload = Some contents
       /\ (TypeError = StopException
           <-> missing_columns (Pandas.columns contents) <> []).
Proof.
  apply (run_raises_no_access_error (Some text_values_upload) None TypeError).
  reflexivity.
Defined.

(** ** The rows of the table of statistics *)

Lemma present_In q s : In q (present s) <-> In (Num q) s.
Proof.
  induction s as [| c rest IH]; simpl; [tauto |].
  destruct c as [| t | p]; simpl; rewrite IH.
  - split; [tauto | intros [H | H]; [discriminate | exact H]].
  - split; [tauto | intros [H | H]; [discriminate | exact H]].
  - split; (intros [H | H]; [left; congruence | now right]).
Qed.

(** The table of statistics, when it is made. *)
Lemma summary_Ok kpi_data table :
  summary kpi_data = Ok table ->
  exists loads vals,
    Pandas.getitem kpi_data "Load" = Ok loads
    /\ Pandas.getitem kpi_data "KPI Value" = Ok vals
    /\ let column := fun f : list Qc -> cell =>
                       map (fun k => f (present (Pandas.group loads vals k)))
                           (Pandas.group_keys loads) in
       table = [("Load", Pandas.group_keys loads);
                ("Min (sec)", column Pandas.stat_min);
                ("Max (sec)", column Pandas.stat_max);
                ("Mean (sec)", column Pandas.stat_mean);
                ("Median (sec)", column Pandas.stat_median)].
Proof.
  unfold summary. intros H.
  destruct (Pandas.getitem kpi_data "Load") as [loads | e]; [| discriminate].
  destruct (Pandas.getitem kpi_data "KPI Value") as [vals | e]; [| discriminate].
  exists loads, vals. split; [reflexivity |]. split; [reflexivity |].
  unfold Pandas.groupby_agg in H. cbv zeta.
  destruct (aggregate_cases Pandas.stat_min loads vals (Pandas.group_keys loads))
    as [[Hall Ha] | [k [t [_ [_ Ha]]]]]; rewrite Ha in H.
  - rewrite !(aggregate_numeric_groups _ loads vals _ Hall) in H.
    now inversion H.
  - destruct (Pandas.aggregate Pandas.stat_max loads vals (Pandas.group_keys loads));
      discriminate.
Qed.

(** X10.  The table of statistics, for whatever frame it is made, has one
    entry in each of its five columns for each load.  In the row of a load
    the minimum and the maximum are missing together, when no row of the
    load has a number, or both are KPI values of rows of that load, the
    minimum no greater than the maximum. *)
Theorem summary_min_le_max (kpi_data table : DataFrame) :
  summary kpi_data = Ok table ->
  exists loads vals keys mins maxs means medians,
    Pandas.getitem kpi_data "Load" = Ok loads
    /\ Pandas.getitem kpi_data "KPI Value" = Ok vals
    /\ table = [("Load", keys); ("Min (sec)", mins); ("Max (sec)", maxs);
                ("Mean (sec)", means); ("Median (sec)", medians)]
    /\ length mins = length keys /\ length maxs = length keys
    /\ length means = length keys /\ length medians = length keys
    /\ forall i k, nth_error keys i = Some k ->
         (nth_error mins i = Some NaN /\ nth_error maxs i = Some NaN
          /\ forall q, ~ In (Num q) (Pandas.group loads vals k))
         \/ exists a b,
             nth_error mins i = Some (Num a) /\ nth_error maxs i = Some (Num b)
             /\ In (Num a) (Pandas.group loads vals k)
             /\ In (Num b) (Pandas.group loads vals k)
             /\ (a <= b)%Qc.
Proof.
  intros H. destruct (summary_Ok kpi_data table H) as [loads [vals [HL [HV Ht]]]].
  cbv zeta in Ht.
  set (keys := Pandas.group_keys loads) in *.
  set (column := fun f : list Qc -> cell =>
                   map (fun k => f (present (Pandas.group loads vals k))) keys).
  exists loads, vals, keys, (column Pandas.stat_min), (column Pandas.stat_max),
    (column Pandas.stat_mean), (column Pandas.stat_median).
  split; [exact HL |]. split; [exact HV |]. split; [exact Ht |].
  unfold column. rewrite !length_map. repeat (split; [reflexivity |]).
  intros i k Ek.
  rewrite !nth_error_map, Ek. simpl.
  pose proof (stat_min_spec (present (Pandas.group loads vals k))) as Hmin.
  pose proof (stat_max_spec (present (Pandas.group loads vals k))) as Hmax.
  pose proof (present_In) as Hin.
  unfold statistic in Hmin, Hmax.
  destruct (present (Pandas.group loads vals k)) as [| x r] eqn:Eg.
  - left. rewrite Hmin, Hmax. repeat split.
    intros q Hq. apply Hin in Hq. rewrite Eg in Hq. destruct Hq.
  - right. destruct Hmin as [a [Ea [Ha Hle]]]. destruct Hmax as [b [Eb [Hb _]]].
    exists a, b. rewrite Ea, Eb. repeat split.
    + apply Hin. now rewrite Eg.
    + apply Hin. now rewrite Eg.
    + rewrite Forall_forall in Hle. now apply Hle.
Qed.

Lemma summary_min_le_max_witness :
  exists loads vals keys mins maxs means medians,
    Pandas.getitem latency_upload "Load" = Ok loads
    /\ Pandas.getitem latency_upload "KPI Value" = Ok vals
    /\ frame_of (summary latency_upload)
       = [("Load", keys); ("Min (sec)", mins); ("Max (sec)", maxs);
          ("Mean (sec)", means); ("Median (sec)", medians)]
    /\ length mins = length keys /\ length maxs = length keys
    /\ length means = length keys /\ length medians = length keys
    /\ forall i k, nth_error keys i = Some k ->
         (nth_error mins i = Some NaN /\ nth_error maxs i = Some NaN
          /\ forall q, ~ In (Num q) (Pandas.group loads vals k))
         \/ exists a b,
             nth_error mins i = Some (Num a) /\ nth_error maxs i = Some (Num b)
             /\ In (Num a) (Pandas.group loads vals k)
             /\ In (Num b) (Pandas.group loads vals k)
             /\ (a <= b)%Qc.
Proof.
  apply (summary_min_le_max latency_upload (frame_of (summary latency_upload))).
  reflexivity.
Defined.

(** ** The order of the loads *)

Lemma key_leb_total a b : Pandas.key_leb a b = true \/ Pandas.key_leb b a = true.
Proof.
  destruct a as [| s | p], b as [| t | q]; simpl; auto.
  - apply String.leb_total.
  - apply Qc_leb_total.
Qed.

Lemma key_le_trans a b c : key_le a b -> key_le b c -> key_le a c.
Proof.
  unfold key_le.
  destruct a as [| s | p], b as [| t | q], c as [| u | r]; simpl;
    try congruence; try reflexivity.
  - apply string_leb_trans.
  - rewrite !Qc_leb_le. apply Qcle_trans.
Qed.

Lemma group_keys_sorted keys : StronglySorted key_le (Pandas.group_keys keys).
Proof.
  unfold Pandas.group_keys. apply Sorted_StronglySorted.
  - intros a b c. apply key_le_trans.
  - apply (isort_sorted cell Pandas.key_leb key_leb_total).
Qed.

Lemma aggregate_length f keys vals ks out :
  Pandas.aggregate f keys vals ks = Ok out -> length out = length ks.
Proof.
  destruct (aggregate_cases f keys vals ks) as [[_ Ha] | [k [t [_ [_ Ha]]]]];
    rewrite Ha; intros H; inversion H. apply length_map.
Qed.

(** X11.  The bar data, for whatever frame it is made, has one row for each
    load of the frame, the missing load left out, each load once, and the
    rows are in increasing order of the load: numbers by value, text by code
    point, numbers before text. *)
Theorem mean_data_rows_sorted (kpi_data bars : DataFrame) :
  mean_data kpi_data = Ok bars ->
  exists loads keys means,
    Pandas.getitem kpi_data "Load" = Ok loads
    /\ bars = [("Load", keys); ("KPI Value", means)]
    /\ length means = length keys
    /\ (forall l, In l keys <-> In l loads /\ l <> NaN)
    /\ NoDup keys
    /\ StronglySorted key_le keys.
Proof.
  unfold mean_data. intros H.
  destruct (Pandas.getitem kpi_data "Load") as [loads | e]; [| discriminate].
  destruct (Pandas.getitem kpi_data "KPI Value") as [vals | e]; [| discriminate].
  destruct (Pandas.groupby_agg Pandas.stat_mean loads vals) as [means | e] eqn:E;
    [| discriminate].
  exists loads, (Pandas.group_keys loads), means.
  split; [reflexivity |]. split; [now inversion H |].
  split; [now apply (aggregate_length _ _ _ _ _ E) |].
  split; [intros l; apply group_keys_In |].
  split; [apply group_keys_NoDup | apply group_keys_sorted].
Qed.

Lemma mean_data_rows_sorted_witness :
  exists loads keys means,
    Pandas.getitem latency_upload "Load" = Ok loads
    /\ frame_of (mean_data latency_upload)
       = [("Load", keys); ("KPI Value", means)]
    /\ length means = length keys
    /\ (forall l, In l keys <-> In l loads /\ l <> NaN)
    /\ NoDup keys
    /\ StronglySorted key_le keys.
Proof.
  apply (mean_data_rows_sorted latency_upload (frame_of (mean_data latency_upload))).
  reflexivity.
Defined.

(** ** The calls of the listing *)

Lemma kpi_mapping_run r df features names :
  Pandas.lookup "feature" df = Some features ->
  Pandas.lookup "KPI Name" df = Some names ->
  Forall text names ->
  forall s, holds s r df ->
    kpi_mapping r s
    = (Ok tt,
       mkState (heap s)
               (log s ++ st_subheader "KPI Mapping by Feature"
                      :: mapping_calls
                           (map (fun '(feature, kpis) => (feature, sorted_value kpis))
                                (Pandas.groupby_unique features names)))).
Proof.
  intros Hf Hn Htext s Hs.
  unfold kpi_mapping, bind at 1. unfold st at 1. unfold bind at 1.
  rewrite (getitem_run _ r df "feature" features) by assumption.
  unfold bind at 1.
  rewrite (getitem_run _ r df "KPI Name" names) by assumption.
  rewrite for_each_mapping.
  - simpl. now rewrite <- app_assoc.
  - intros f ks Hin. unfold Pandas.groupby_unique in Hin.
    apply in_map_iff in Hin. destruct Hin as [k [Hk _]]. inversion Hk; subst.
    assert (Ht : Forall text (Pandas.unique (Pandas.group features names f))).
    { apply Forall_forall. intros x Hx. rewrite unique_In in Hx.
      apply group_incl in Hx. rewrite Forall_forall in Htext. now apply Htext. }
    destruct (sorted_text _ Ht) as [l [Hl _]]. eauto.
Qed.

(** ** The order of the rows *)

Lemma filter_Permutation {A} (f : A -> bool) l l' :
  Permutation l l' -> Permutation (filter f l) (filter f l').
Proof.
  induction 1 as [| x l l' Hp IH | x y l | l l' l'' H1 IH1 H2 IH2]; simpl.
  - constructor.
  - destruct (f x); [now constructor | exact IH].
  - destruct (f x), (f y); try apply Permutation_refl. apply perm_swap.
  - eapply perm_trans; eauto.
Qed.

Lemma sorted_perm_eq {A} (le : A -> A -> Prop) :
  (forall x y, le x y -> le y x -> x = y) ->
  forall l l', StronglySorted le l -> StronglySorted le l' ->
               Permutation l l' -> l = l'.
Proof.
  intros Hanti. induction l as [| a r IH]; intros l' Hs Hs' Hp.
  - apply Permutation_nil in Hp. now subst.
  - destruct l' as [| a' r'].
    + apply Permutation_sym, Permutation_nil in Hp. discriminate.
    + apply StronglySorted_inv in Hs, Hs'.
      destruct Hs as [Hr Ha]. destruct Hs' as [Hr' Ha'].
      rewrite Forall_forall in Ha, Ha'.
      assert (E : a = a').
      { assert (H1 : In a (a' :: r'))
          by (eapply Permutation_in; [exact Hp | now left]).
        assert (H2 : In a' (a :: r))
          by (eapply Permutation_in; [apply Permutation_sym, Hp | now left]).
        destruct H1 as [H1 | H1]; [congruence |].
        destruct H2 as [H2 | H2]; [congruence |].
        apply Hanti; auto. }
      subst a'. f_equal. apply IH; try assumption.
      now apply Permutation_cons_inv in Hp.
Qed.

Lemma key_le_antisym a b : key_le a b -> key_le b a -> a = b.
Proof.
  unfold key_le. destruct a as [| s | p], b as [| t | q]; simpl;
    try congruence.
  - intros H1 H2. f_equal. now apply String.leb_antisym.
  - rewrite !Qc_leb_le. intros H1 H2. f_equal. now apply Qcle_antisym.
Qed.

Lemma unique_Permutation s s' :
  Permutation s s' -> Permutation (Pandas.unique s) (Pandas.unique s').
Proof.
  intros H. apply NoDup_Permutation; try apply unique_NoDup.
  intros x. rewrite !unique_In. split; apply Permutation_in;
    [exact H | now apply Permutation_sym].
Qed.

(** The loads listed do not depend on the order of the rows. *)
Lemma group_keys_Permutation keys keys' :
  Permutation keys keys' -> Pandas.group_keys keys = Pandas.group_keys keys'.
Proof.
  intros H. apply (sorted_perm_eq key_le key_le_antisym);
    try apply group_keys_sorted.
  unfold Pandas.group_keys.
  eapply perm_trans; [apply Permutation_sym, isort_perm |].
  eapply perm_trans; [| apply isort_perm].
  apply unique_Permutation. unfold Pandas.dropna. now apply filter_Permutation.
Qed.

Lemma group_Permutation keys vals keys' vals' k :
  Permutation (combine keys vals) (combine keys' vals') ->
  Permutation (Pandas.group keys vals k) (Pandas.group keys' vals' k).
Proof.
  intros H. unfold Pandas.group. apply Permutation_map.
  now apply filter_Permutation.
Qed.

Lemma present_Permutation s s' :
  Permutation s s' -> Permutation (present s) (present s').
Proof.
  induction 1 as [| x l l' Hp IH | x y l | l l' l'' H1 IH1 H2 IH2].
  - constructor.
  - destruct x; simpl; [exact IH | exact IH | now constructor].
  - destruct x, y; simpl; try apply Permutation_refl. apply perm_swap.
  - eapply perm_trans; eauto.
Qed.

Lemma stat_min_Permutation g g' :
  Permutation g g' -> Pandas.stat_min g = Pandas.stat_min g'.
Proof.
  intros H. pose proof (Permutation_length H) as Hlen.
  unfold Pandas.stat_min.
  destruct g as [| x r], g' as [| x' r']; try discriminate; [reflexivity |].
  destruct (fold_min_spec r x) as [Hin Hall].
  destruct (fold_min_spec r' x') as [Hin' Hall'].
  rewrite Forall_forall in Hall, Hall'. f_equal. apply Qcle_antisym.
  - apply Hall. eapply Permutation_in; [apply Permutation_sym, H | exact Hin'].
  - apply Hall'. eapply Permutation_in; [exact H | exact Hin].
Qed.

Lemma stat_max_Permutation g g' :
  Permutation g g' -> Pandas.stat_max g = Pandas.stat_max g'.
Proof.
  intros H. pose proof (Permutation_length H) as Hlen.
  unfold Pandas.stat_max.
  destruct g as [| x r], g' as [| x' r']; try discriminate; [reflexivity |].
  destruct (fold_max_spec r x) as [Hin Hall].
  destruct (fold_max_spec r' x') as [Hin' Hall'].
  rewrite Forall_forall in Hall, Hall'. f_equal. apply Qcle_antisym.
  - apply Hall'. eapply Permutation_in; [exact H | exact Hin].
  - apply Hall. eapply Permutation_in; [apply Permutation_sym, H | exact Hin'].
Qed.

Lemma combine_fst_Permutation (keys vals keys' vals' : Series) :
  length keys = length vals -> length keys' = length vals' ->
  Permutation (combine keys vals) (combine keys' vals') ->
  Permutation keys keys'.
Proof.
  intros H1 H2 Hp. apply (Permutation_map fst) in Hp.
  assert (Hfst : forall (k v : Series), length k = length v ->
                                        map fst (combine k v) = k).
  { induction k as [| a k IH]; intros [| b v] Hlen; simpl in *;
      try discriminate; [reflexivity |]. f_equal. apply IH. lia. }
  now rewrite !Hfst in Hp.
Qed.

(** X13.  The loads, the minima and the maxima of the table of statistics
    do not depend on the order of the rows: two frames whose rows, read as
    pairs of a load and a KPI value, are the same up to their order give,
    when the table is made for both, the same loads in the same order with
    the same minimum and the same maximum for each. *)
Theorem extremes_row_order (frame frame' table table' : DataFrame)
        (loads vals loads' vals' : Series) :
  Pandas.getitem frame "Load" = Ok loads ->
  Pandas.getitem frame "KPI Value" = Ok vals ->
  Pandas.getitem frame' "Load" = Ok loads' ->
  Pandas.getitem frame' "KPI Value" = Ok vals' ->
  length loads = length vals ->
  length loads' = length vals' ->
  Permutation (combine loads vals) (combine loads' vals') ->
  summary frame = Ok table ->
  summary frame' = Ok table' ->
  Pandas.lookup "Load" table = Pandas.lookup "Load" table'
  /\ Pandas.lookup "Min (sec)" table = Pandas.lookup "Min (sec)" table'
  /\ Pandas.lookup "Max (sec)" table = Pandas.lookup "Max (sec)" table'.
Proof.
  intros HL HV HL' HV' Hlen Hlen' Hp Ht Ht'.
  pose proof (combine_fst_Permutation _ _ _ _ Hlen Hlen' Hp) as Hkeys.
  destruct (summary_Ok frame table Ht) as [l [v [El [Ev E]]]].
  destruct (summary_Ok frame' table' Ht') as [l' [v' [El' [Ev' E']]]].
  cbv zeta in E, E'.
  assert (l = loads) by congruence. assert (v = vals) by congruence.
  assert (l' = loads') by congruence. assert (v' = vals') by congruence.
  subst l v l' v' table table'. simpl.
  rewrite (group_keys_Permutation _ _ Hkeys).
  split; [reflexivity |].
  split; f_equal; apply map_ext; intros k.
  - apply stat_min_Permutation, present_Permutation.
    now apply group_Permutation.
  - apply stat_max_Permutation, present_Permutation.
    now apply group_Permutation.
Qed.

Lemma extremes_row_order_witness :
  Pandas.lookup "Load" (frame_of (summary latency_upload))
  = Pandas.lookup "Load" (frame_of (summary reordered_upload))
  /\ Pandas.lookup "Min (sec)" (frame_of (summary latency_upload))
     = Pandas.lookup "Min (sec)" (frame_of (summary reordered_upload))
  /\ Pandas.lookup "Max (sec)" (frame_of (summary latency_upload))
     = Pandas.lookup "Max (sec)" (frame_of (summary reordered_upload)).
Proof.
  apply (extremes_row_order latency_upload reordered_upload
           (frame_of (summary latency_upload))
           (frame_of (summary reordered_upload))
           [Str "Low"; Str "High"; Str "Low"; Str "High"; Str "Low"; Str "High"]
           (map (fun z => Num (Q2Qc (inject_Z z))) [1; 4; 2; 5; 3; 6]%Z)
           [Str "High"; Str "High"; Str "High"; Str "Low"; Str "Low"; Str "Low"]
           (map (fun z => Num (Q2Qc (inject_Z z))) [6; 5; 4; 3; 2; 1]%Z));
    try reflexivity.
  simpl.
  apply Permutation_sym.
  apply (Permutation_cons_app [_; _; _; _; _] []).
  apply (Permutation_cons_app [_; _; _] [_]).
  apply (Permutation_cons_app [_] [_; _]).
  apply (Permutation_cons_app [_; _] []).
  apply (Permutation_cons_app [_] []).
  apply Permutation_refl.
Defined.

(** ** Every run *)

(** X14.  In every run, without an upload or on the table of an upload, and
    whatever is selected, the calls of the page setup come first, and the
    table read from the upload is the first object of the store and is the
    same at the end of the run as when it was read, also when the run
    raises.  Without an upload the script creates no object, raises nothing
    and makes four calls: it writes the string that stands as a statement at
    line 156, writes the two lines of the prompt, and warns. *)
Theorem run_keeps_upload (uploaded_file : option DataFrame)
        (choice : option Series) :
  exists objects calls,
    heap (snd (run uploaded_file choice))
    = match uploaded_file with
      | Some contents => contents :: objects
      | None => []
      end
    /\ log (snd (run uploaded_file choice)) = page_setup_calls ++ calls
    /\ (uploaded_file = None ->
        fst (run uploaded_file choice) = Ok tt
        /\ calls
           = [st_write "Prompt user to upload a file and also convey the user regarding the CSV file columns.";
              st_write "Please upload a CSV file containing performance data using the sidebar.";
              st_write (String.append
                          "Upload the CSV file which contain following columns: "
                          (join REQUIRED_COLUMNS));
              st_warning "Please upload a CSV file to proceed."]).
Proof.
  destruct uploaded_file as [contents |].
  - destruct (missing_columns (Pandas.columns contents)) as [| col rest] eqn:Em.
    + rewrite (run_checked contents choice Em).
      destruct (consistent contents).
      * destruct (render_begins 0 contents choice) as [res [extra [out Hr]]].
        rewrite (Hr (mkState [contents] page_setup_calls) eq_refl).
        exists extra, (title :: out). split; [reflexivity | split; [reflexivity | discriminate]].
      * exists [], inconsistent_report. split; [reflexivity | split; [reflexivity | discriminate]].
    + rewrite (run_missing contents choice col rest Em).
      exists [], (missing_columns_report (col :: rest)). split; [reflexivity | split; [reflexivity | discriminate]].
  - eexists [], _. split; [reflexivity | split; [reflexivity |]].
    intros _. split; reflexivity.
Qed.

(** ** The listing of the features *)

Lemma group_not_empty keys vals k :
  length keys = length vals -> In k keys -> Pandas.group keys vals k <> [].
Proof.
  intros Hlen Hk. apply In_nth_error in Hk. destruct Hk as [i Hi].
  assert (Hlt : i < length vals).
  { rewrite <- Hlen. apply nth_error_Some. congruence. }
  destruct (nth_error vals i) as [v |] eqn:Ev;
    [| apply nth_error_None in Ev; lia].
  intros E. assert (Hin : In v (Pandas.group keys vals k))
    by (apply group_In; eauto).
  rewrite E in Hin. destruct Hin.
Qed.

(** X15.  On an upload whose KPI names are text, lines 93 to 99 raise
    nothing and create no object, and the features are listed in increasing
    order by code point, whatever the order of the rows.  When the feature
    and KPI name columns have one entry for each row, no feature is listed
    without a KPI name under it. *)
Theorem kpi_mapping_features_sorted (s : state) (data_set : ref)
        (df : DataFrame) (features names : Series) :
  holds s data_set df ->
  Pandas.lookup "feature" df = Some features ->
  Pandas.lookup "KPI Name" df = Some names ->
  Forall text names ->
  exists listing : list (cell * list cell),
    kpi_mapping data_set s
    = (Ok tt,
       mkState (heap s)
               (log s ++ st_subheader "KPI Mapping by Feature"
                      :: mapping_calls listing))
    /\ StronglySorted key_le (map fst listing)
    /\ (length features = length names ->
        forall feature kpis, In (feature, kpis) listing -> kpis <> []).
Proof.
  intros Hs Hf Hn Htext.
  set (grouped := Pandas.groupby_unique features names).
  exists (map (fun '(feature, kpis) => (feature, sorted_value kpis)) grouped).
  split; [| split].
  - now apply (kpi_mapping_run data_set df features names).
  - rewrite map_map.
    replace (map (fun x => fst (let '(feature, kpis) := x in
                                (feature, sorted_value kpis))) grouped)
      with (Pandas.group_keys features).
    + apply group_keys_sorted.
    + unfold grouped, Pandas.groupby_unique. rewrite map_map. simpl.
      now rewrite map_id.
  - intros Hlen f ks Hin. apply in_map_iff in Hin.
    destruct Hin as [[f' ks'] [Heq Hin]]. inversion Heq; subst f ks.
    unfold grouped, Pandas.groupby_unique in Hin.
    apply in_map_iff in Hin. destruct Hin as [k [Hk Hkey]].
    inversion Hk; subst f' ks'.
    apply group_keys_In in Hkey. destruct Hkey as [Hkey _].
    pose proof (group_not_empty features names k Hlen Hkey) as Hne.
    assert (Ht : Forall text (Pandas.unique (Pandas.group features names k))).
    { apply Forall_forall. intros x Hx. rewrite unique_In in Hx.
      apply group_incl in Hx. rewrite Forall_forall in Htext. now apply Htext. }
    destruct (sorted_text _ Ht) as [l [Hl [Hp _]]].
    unfold sorted_value. rewrite Hl. intros E. subst l.
    apply Permutation_sym, Permutation_nil in Hp.
    destruct (Pandas.group features names k) as [| x r]; [congruence |].
    rewrite unique_cons in Hp. discriminate.
Qed.

Lemma kpi_mapping_features_sorted_witness :
  exists listing : list (cell * list cell),
    kpi_mapping 0 (mkState [four_kpis_upload] [])
    = (Ok tt,
       mkState [four_kpis_upload]
               ([] ++ st_subheader "KPI Mapping by Feature"
                   :: mapping_calls listing))
    /\ StronglySorted key_le (map fst listing)
    /\ (length [Str "Login"; Str "Login"; Str "Sync"; Str "Sync";
                Str "Sync"; Str "Login"]
        = length [Str "D"; Str "B"; Str "D"; Str "A"; Str "C"; Str "B"] ->
        forall feature kpis, In (feature, kpis) listing -> kpis <> []).
Proof.
  apply (kpi_mapping_features_sorted (mkState [four_kpis_upload] []) 0
           four_kpis_upload); try reflexivity.
  repeat constructor; eexists; reflexivity.
Defined.
